(** * The card validator and its two Card components

    A shallow embedding of [validateCardProps] and of the [Card] component
    of [Card.tsx], of the inline-styled [Card] that the demo application
    imports, and of the part of the host framework's effect contract that
    [Card] relies on.

    Strings are JavaScript strings: finite sequences of UTF-16 code units,
    so [length] is what [s.length] returns.  A field of the props that the
    caller left out is [VUndefined]. *)

From Stdlib Require Import NArith Ascii String DecimalNat.
From stdpp Require Import base decidable option list strings gmap fin_maps.

Local Open Scope N_scope.
Local Open Scope nat_scope.

(** ** JavaScript strings *)

Definition code_unit := N.
Definition jsstring := list code_unit.

(** An ASCII literal of the source as a sequence of code units. *)
Definition js (s : string) : jsstring :=
  map N_of_ascii (list_ascii_of_string s).

(** [WhiteSpace] and [LineTerminator] of ECMAScript: what [trim] strips. *)
Definition isWhiteSpace (c : code_unit) : bool :=
  ((9 <=? c) && (c <=? 13))%N
  || (c =? 32)%N || (c =? 160)%N || (c =? 5760)%N
  || ((8192 <=? c) && (c <=? 8202))%N
  || (c =? 8232)%N || (c =? 8233)%N || (c =? 8239)%N || (c =? 8287)%N
  || (c =? 12288)%N || (c =? 65279)%N.

Fixpoint trimStart (s : jsstring) : jsstring :=
  match s with
  | c :: s' => if isWhiteSpace c then trimStart s' else s
  | [] => []
  end.

Definition trimEnd (s : jsstring) : jsstring := rev (trimStart (rev s)).

Definition trim (s : jsstring) : jsstring := trimEnd (trimStart s).

(** [String(n)] for a length: its decimal digits. *)
Fixpoint digits (u : Decimal.uint) : jsstring :=
  match u with
  | Decimal.Nil => []
  | Decimal.D0 u => 48%N :: digits u
  | Decimal.D1 u => 49%N :: digits u
  | Decimal.D2 u => 50%N :: digits u
  | Decimal.D3 u => 51%N :: digits u
  | Decimal.D4 u => 52%N :: digits u
  | Decimal.D5 u => 53%N :: digits u
  | Decimal.D6 u => 54%N :: digits u
  | Decimal.D7 u => 55%N :: digits u
  | Decimal.D8 u => 56%N :: digits u
  | Decimal.D9 u => 57%N :: digits u
  end.

Definition numberToString (n : nat) : jsstring := digits (Nat.to_uint n).

(** [s.startsWith(p)] and [s.includes(p)], the latter being what the
    tests' [toContain] checks on a message. *)
Fixpoint startsWith (p s : jsstring) : bool :=
  match p, s with
  | [], _ => true
  | a :: p', b :: s' => (a =? b)%N && startsWith p' s'
  | _ :: _, [] => false
  end.

Fixpoint includes (p s : jsstring) : bool :=
  startsWith p s ||
  match s with
  | [] => false
  | _ :: s' => includes p s'
  end.

(** ['a'.repeat(n)] *)
Definition repeatUnit (c : code_unit) (n : nat) : jsstring := replicate n c.
Arguments repeatUnit c%_N n%_nat.

(** ** Values and abrupt completion

    The values a [title] or [description] can hold at run time: a string,
    or nothing.  A method call on nothing throws a [TypeError]. *)

Inductive value :=
| VUndefined
| VNull
| VString (s : jsstring).

Inductive result (A : Type) :=
| Ok (a : A)
| Throw.
Arguments Ok {A} a.
Arguments Throw {A}.

#[global] Instance result_ret : MRet result := fun A a => Ok a.
#[global] Instance result_bind : MBind result := fun A B f m =>
  match m with
  | Ok a => f a
  | Throw => Throw
  end.

(** [!v] is [negb (truthy v)]. *)
Definition truthy (v : value) : bool :=
  match v with
  | VString (_ :: _) => true
  | _ => false
  end.

(** [a || b] on conditions: [b] is evaluated only when [a] is false. *)
Definition orElse (a b : result bool) : result bool :=
  x ← a; if (x : bool) then mret true else b.

(** The string runtime the validator calls into.  [toLowerCase] is the
    engine's Unicode lower-casing; all that is fixed of it is what it does
    to ASCII text, where it moves [A]..[Z] to [a]..[z] and nothing else. *)
Definition isAscii (c : code_unit) : bool := (c <? 128)%N.

Definition lowerAscii (c : code_unit) : code_unit :=
  if ((65 <=? c) && (c <=? 90))%N then (c + 32)%N else c.

Class StringRuntime := {
  toLowerCase : jsstring -> jsstring;
  toLowerCase_ascii :
    forall s, forallb isAscii s = true -> toLowerCase s = map lowerAscii s
}.

Definition call_trim (v : value) : result jsstring :=
  match v with
  | VString s => Ok (trim s)
  | _ => Throw
  end.

Definition get_length (v : value) : result nat :=
  match v with
  | VString s => Ok (length s)
  | _ => Throw
  end.

Definition call_toLowerCase `{StringRuntime} (s : jsstring) : result jsstring :=
  Ok (toLowerCase s).

(** ** [validateCardProps] (Card.tsx, and verbatim in the demo's Card) *)

Record CardValidation := {
  isValid : bool;
  message : jsstring
}.

#[global] Instance CardValidation_eq_dec : EqDecision CardValidation.
Proof. solve_decision. Defined.

Definition validateCardProps `{StringRuntime} (title description : value)
  : result CardValidation :=
  c1 ← orElse (mret (negb (truthy title)))
              (t ← call_trim title; mret (length t =? 0));
  if (c1 : bool) then
    mret {| isValid := false;
            message := js "Card title is required and cannot be empty. Please provide a meaningful title to describe your content." |}
  else
  n ← get_length title;
  if 100 <? n then
    len ← get_length title;
    mret {| isValid := false;
            message := js "Card title is too long (" ++ numberToString len
                       ++ js "/100 characters). Please use a concise title that summarizes your content effectively." |}
  else
  c3 ← orElse (mret (negb (truthy description)))
              (d ← call_trim description; mret (length d =? 0));
  if (c3 : bool) then
    mret {| isValid := false;
            message := js "Card description is required and cannot be empty. Please provide a clear description to give users context about your content." |}
  else
  m ← get_length description;
  if 500 <? m then
    len ← get_length description;
    mret {| isValid := false;
            message := js "Card description is too long (" ++ numberToString len
                       ++ js "/500 characters). Please provide a concise description that highlights the key information." |}
  else
  t ← call_trim title;
  tl ← call_toLowerCase t;
  d ← call_trim description;
  dl ← call_toLowerCase d;
  if bool_decide (tl = dl) then
    mret {| isValid := false;
            message := js "Card title and description should be different. The description should provide additional context beyond the title." |}
  else
    mret {| isValid := true;
            message := js "Card content is valid and provides meaningful information to users." |}.

(** A runtime to evaluate examples with: ASCII lower-casing throughout. *)
Definition asciiRuntime : StringRuntime :=
  {| toLowerCase := map lowerAscii;
     toLowerCase_ascii := fun s _ => eq_refl |}.

(** ** The validator as the specification words it

    Six verdict kinds, and the six rules in their order.  [spec_validate]
    is written from the rules, not from the code; the two are compared
    below. *)

Inductive VerdictKind :=
| MissingTitle
| TitleTooLong
| MissingDescription
| DescriptionTooLong
| DuplicateContent
| Valid.

#[global] Instance VerdictKind_eq_dec : EqDecision VerdictKind.
Proof. solve_decision. Defined.

(** Absent, or empty once leading and trailing whitespace is removed. *)
Definition absentOrBlank (v : value) : bool :=
  match v with
  | VString s => bool_decide (trim s = [])
  | _ => true
  end.

(** Length of the untrimmed original string. *)
Definition rawLength (v : value) : nat :=
  match v with
  | VString s => length s
  | _ => 0
  end.

(** The trimmed, lower-cased text. *)
Definition trimmedLower `{StringRuntime} (v : value) : jsstring :=
  match v with
  | VString s => toLowerCase (trim s)
  | _ => []
  end.

Definition classify `{StringRuntime} (title description : value) : VerdictKind :=
  if absentOrBlank title then MissingTitle
  else if 100 <? rawLength title then TitleTooLong
  else if absentOrBlank description then MissingDescription
  else if 500 <? rawLength description then DescriptionTooLong
  else if bool_decide (trimmedLower title = trimmedLower description)
       then DuplicateContent
  else Valid.

(** The one canonical message of each kind; the two too-long messages
    interpolate the raw length and the limit. *)
Definition canonicalMessage (k : VerdictKind) (title description : value)
  : jsstring :=
  match k with
  | MissingTitle =>
      js "Card title is required and cannot be empty. Please provide a meaningful title to describe your content."
  | TitleTooLong =>
      js "Card title is too long (" ++ numberToString (rawLength title)
      ++ js "/100 characters). Please use a concise title that summarizes your content effectively."
  | MissingDescription =>
      js "Card description is required and cannot be empty. Please provide a clear description to give users context about your content."
  | DescriptionTooLong =>
      js "Card description is too long (" ++ numberToString (rawLength description)
      ++ js "/500 characters). Please provide a concise description that highlights the key information."
  | DuplicateContent =>
      js "Card title and description should be different. The description should provide additional context beyond the title."
  | Valid =>
      js "Card content is valid and provides meaningful information to users."
  end.

Definition verdictOfKind (k : VerdictKind) (title description : value)
  : CardValidation :=
  {| isValid := bool_decide (k = Valid);
     message := canonicalMessage k title description |}.

Definition spec_validate `{StringRuntime} (title description : value)
  : CardValidation :=
  verdictOfKind (classify title description) title description.

(** What each kind says about the input: the conditions of its own rule
    and the failure of every earlier one. *)
Definition ruleOf `{StringRuntime} (k : VerdictKind) (title description : value) : Prop :=
  match k with
  | MissingTitle => absentOrBlank title = true
  | TitleTooLong => absentOrBlank title = false /\ 100 < rawLength title
  | MissingDescription =>
      absentOrBlank title = false /\ rawLength title <= 100
      /\ absentOrBlank description = true
  | DescriptionTooLong =>
      absentOrBlank title = false /\ rawLength title <= 100
      /\ absentOrBlank description = false /\ 500 < rawLength description
  | DuplicateContent =>
      absentOrBlank title = false /\ rawLength title <= 100
      /\ absentOrBlank description = false /\ rawLength description <= 500
      /\ trimmedLower title = trimmedLower description
  | Valid =>
      absentOrBlank title = false /\ rawLength title <= 100
      /\ absentOrBlank description = false /\ rawLength description <= 500
      /\ trimmedLower title <> trimmedLower description
  end.

(** Reading the kind back off a message: its first 21 code units. *)
Definition recoverKind (msg : jsstring) : option VerdictKind :=
  let head := take 21 msg in
  if bool_decide (head = js "Card title is require") then Some MissingTitle
  else if bool_decide (head = js "Card title is too lon") then Some TitleTooLong
  else if bool_decide (head = js "Card description is r") then Some MissingDescription
  else if bool_decide (head = js "Card description is t") then Some DescriptionTooLong
  else if bool_decide (head = js "Card title and descri") then Some DuplicateContent
  else if bool_decide (head = js "Card content is valid") then Some Valid
  else None.

(** ** Render trees

    What a component returns: host elements with a forwarded ref, their
    attributes and their children.  An attribute is a string or, for
    [style], an object of CSS declarations. *)

Inductive css :=
| CssValue (s : string)
| CssNested (o : gmap string string).

Inductive attr :=
| AString (s : jsstring)
| AStyle (o : gmap string css).

Inductive Node :=
| Text (s : jsstring)
| Expr (v : value)
| Elem (tag : string) (ref : option nat) (attrs : gmap string attr)
       (children : list Node).

(** [const {className, ...props} = allProps]: the attribute read as a class
    value, and the object without it. *)
Definition classNameOf (props : gmap string attr) : value :=
  match props !! "className" with
  | Some (AString s) => VString s
  | _ => VUndefined
  end.

(** The warning icon of the error view (the same in both components up to
    how it is sized). *)
Definition iconPath : Node :=
  Elem "path" None
    {[ "strokeLinecap" := AString (js "round");
       "strokeLinejoin" := AString (js "round");
       "strokeWidth" := AString (js "2");
       "d" := AString (js "M12 8v4m0 4h.01M21 12a9 9 0 11-18 0 9 9 0 0118 0z") ]}
    [].

(** ** Observers, effects and the store of verdict objects *)

(** A callback is known by its identity. *)
Definition Observer := nat.

(** Every call of [validateCardProps] returns a new object.  The objects
    live in a store; a reference is the identity [Object.is] compares. *)
Definition Ref := nat.
Definition Store := list CardValidation.

Definition alloc (v : CardValidation) (σ : Store) : Ref * Store :=
  (length σ, σ ++ [v]).

(** What the framework and the observers do, in order. *)
Inductive Event :=
| Committed (tree : Node)
| Called (observer : Observer) (validation : CardValidation).

(** [React.useEffect(() => body, deps)]: the calls the body makes when it
    runs, and the dependency array. *)
Inductive Dep :=
| DepObject (r : Ref)
| DepCallback (f : option Observer).

#[global] Instance Dep_eq_dec : EqDecision Dep.
Proof. solve_decision. Defined.

Record Effect := {
  effect_body : list Event;
  effect_deps : list Dep
}.

(** One run of a function component: the tree it returns and the effect
    it registered on the way. *)
Record Render := {
  tree : Node;
  effect : Effect
}.

(** ** The style lookup of Card.tsx

    [cva] and [cn] come from outside the component and are kept abstract;
    the variant table handed to [cva] is the one of the source. *)

Inductive Variant := VariantDefault | Featured | Interactive | Compact | VariantStatus.
Inductive Size := Sm | SizeDefault | Lg.
Inductive Status := StatusNone | Success | Warning | Error | Info.

#[global] Instance Variant_eq_dec : EqDecision Variant.
Proof. solve_decision. Defined.
#[global] Instance Size_eq_dec : EqDecision Size.
Proof. solve_decision. Defined.
#[global] Instance Status_eq_dec : EqDecision Status.
Proof. solve_decision. Defined.

Record CvaConfig := {
  variants_variant : Variant -> string;
  variants_size : Size -> string;
  variants_status : Status -> string;
  defaultVariants_variant : Variant;
  defaultVariants_size : Size;
  defaultVariants_status : Status
}.

(** The object handed to [cardVariants(...)]. *)
Record CvaProps := {
  cva_variant : option Variant;
  cva_size : option Size;
  cva_status : option Status;
  cva_className : value
}.

Class StyleSystem := {
  cva : string -> CvaConfig -> CvaProps -> jsstring;
  cn : list value -> jsstring
}.

(** ** The components of Card.tsx *)

Module Tsx.

Definition cardVariants `{StyleSystem} : CvaProps -> jsstring :=
  cva "rounded-lg border bg-card text-card-foreground shadow-sm transition-all duration-200"
    {| variants_variant := fun v =>
         match v with
         | VariantDefault => "border-border bg-card hover:shadow-md"
         | Featured => "border-primary/20 bg-gradient-to-br from-primary/5 to-primary/10 shadow-md hover:shadow-lg"
         | Interactive => "border-border bg-card hover:border-primary/40 hover:shadow-md cursor-pointer active:scale-[0.98]"
         | Compact => "border-border bg-card p-3 shadow-xs hover:shadow-sm"
         | VariantStatus => "border-l-4 bg-card shadow-sm"
         end;
       variants_size := fun s =>
         match s with
         | Sm => "p-4 space-y-2"
         | SizeDefault => "p-6 space-y-4"
         | Lg => "p-8 space-y-6"
         end;
       variants_status := fun s =>
         match s with
         | StatusNone => ""
         | Success => "border-l-green-500 bg-green-50/50 dark:bg-green-950/10"
         | Warning => "border-l-amber-500 bg-amber-50/50 dark:bg-amber-950/10"
         | Error => "border-l-red-500 bg-red-50/50 dark:bg-red-950/10"
         | Info => "border-l-blue-500 bg-blue-50/50 dark:bg-blue-950/10"
         end;
       defaultVariants_variant := VariantDefault;
       defaultVariants_size := SizeDefault;
       defaultVariants_status := StatusNone |}.

(** The sub-components: [({ className, ...props }, ref) => <tag ... />].
    [children] travel inside [props] in the source and are passed on with
    them; here they are a second argument. *)
Definition CardHeader `{StyleSystem} (props : gmap string attr)
    (children : list Node) : Node :=
  Elem "div" None
    (delete "className" props
     ∪ {[ "className" :=
            AString (cn [VString (js "flex flex-col space-y-1.5"); classNameOf props]) ]})
    children.

Definition CardTitle `{StyleSystem} (props : gmap string attr)
    (children : list Node) : Node :=
  Elem "h3" None
    (delete "className" props
     ∪ {[ "className" :=
            AString (cn [VString (js "font-semibold leading-none tracking-tight text-lg");
                         classNameOf props]) ]})
    children.

Definition CardDescription `{StyleSystem} (props : gmap string attr)
    (children : list Node) : Node :=
  Elem "p" None
    (delete "className" props
     ∪ {[ "className" :=
            AString (cn [VString (js "text-sm text-muted-foreground leading-relaxed");
                         classNameOf props]) ]})
    children.

Definition CardContent `{StyleSystem} (props : gmap string attr)
    (children : list Node) : Node :=
  Elem "div" None
    (delete "className" props
     ∪ {[ "className" := AString (cn [VString (js "pt-0"); classNameOf props]) ]})
    children.

Definition CardFooter `{StyleSystem} (props : gmap string attr)
    (children : list Node) : Node :=
  Elem "div" None
    (delete "className" props
     ∪ {[ "className" :=
            AString (cn [VString (js "flex items-center pt-4 border-t border-border/50");
                         classNameOf props]) ]})
    children.


Record CardProps := {
  className : value;
  variant : option Variant;
  size : option Size;
  status : option Status;
  title : value;
  description : value;
  showValidation : option bool;
  onValidationChange : option Observer;
  forwardedRef : option nat;
  (** every other attribute the caller passed *)
  others : gmap string attr
}.

(** The names the parameter pattern takes out before [...props]. *)
Definition destructured : list string :=
  ["className"; "variant"; "size"; "status"; "title"; "description";
   "showValidation"; "onValidationChange"].

Definition restProps (p : CardProps) : gmap string attr :=
  foldr delete (others p) destructured.

Definition errorView `{StyleSystem} (p : CardProps) (validation : CardValidation)
  : Node :=
  Elem "div" (forwardedRef p)
    (restProps p
     ∪ {[ "className" :=
            AString (cn [VString (cardVariants
                                    {| cva_variant := Some VariantStatus;
                                       cva_size := size p;
                                       cva_status := Some Error;
                                       cva_className := className p |});
                         VString (js "animate-in slide-in-from-left-1 duration-200")]);
          "role" := AString (js "alert");
          "aria-live" := AString (js "polite") ]})
    [ CardHeader ∅
        [ CardTitle
            {[ "className" :=
                 AString (js "text-red-700 dark:text-red-400 flex items-center gap-2") ]}
            [ Elem "svg" None
                {[ "className" := AString (js "h-5 w-5");
                   "fill" := AString (js "none");
                   "viewBox" := AString (js "0 0 24 24");
                   "stroke" := AString (js "currentColor") ]}
                [iconPath];
              Text (js "Invalid Card Configuration") ] ];
      CardContent ∅
        [ Elem "p" None
            {[ "className" := AString (js "text-sm text-red-600 dark:text-red-300") ]}
            [ Expr (VString (message validation)) ] ] ].

Definition normalView `{StyleSystem} (p : CardProps) : Node :=
  Elem "div" (forwardedRef p)
    (restProps p
     ∪ {[ "className" :=
            AString (cn [VString (cardVariants
                                    {| cva_variant := variant p;
                                       cva_size := size p;
                                       cva_status := status p;
                                       cva_className := className p |})]);
          "role" := AString (js "article");
          "aria-labelledby" := AString (js "card-title");
          "aria-describedby" := AString (js "card-description") ]})
    [ CardHeader ∅
        [ CardTitle {[ "id" := AString (js "card-title") ]} [ Expr (title p) ] ];
      CardContent ∅
        [ CardDescription {[ "id" := AString (js "card-description") ]}
            [ Expr (description p) ] ] ].

Definition Card `{StringRuntime} `{StyleSystem} (p : CardProps) (σ : Store)
  : result (Render * Store) :=
  validation ← validateCardProps (title p) (description p);
  let '(r, σ') := alloc validation σ in
  let eff :=
    {| effect_body :=
         match onValidationChange p with
         | Some f => [Called f validation]
         | None => []
         end;
       effect_deps := [DepObject r; DepCallback (onValidationChange p)] |} in
  if negb (isValid validation) && default false (showValidation p) then
    mret ({| tree := errorView p validation; effect := eff |}, σ')
  else
    mret ({| tree := normalView p; effect := eff |}, σ').

(** The same props with another requested variant and status. *)
Definition withLook (var : option Variant) (st : option Status) (p : CardProps)
  : CardProps :=
  {| className := className p; variant := var; size := size p; status := st;
     title := title p; description := description p;
     showValidation := showValidation p;
     onValidationChange := onValidationChange p;
     forwardedRef := forwardedRef p; others := others p |}.

(** [<Card title=... description=... onValidationChange=... />] *)
Definition observed (t d : jsstring) (f : Observer) : CardProps :=
  {| className := VUndefined; variant := None; size := None; status := None;
     title := VString t; description := VString d;
     showValidation := None; onValidationChange := Some f;
     forwardedRef := None; others := ∅ |}.

End Tsx.

(** ** [Card] of the demo application (inline styles) *)

Module Jsx.

(** [{...a, ...b, ...c}]: a later object overrides an earlier one. *)
Definition spread {V} (objs : list (gmap string V)) : gmap string V :=
  foldl (fun acc o => o ∪ acc) ∅ objs.

Fixpoint joinWith (sep : jsstring) (l : list jsstring) : jsstring :=
  match l with
  | [] => []
  | [s] => s
  | s :: l' => s ++ sep ++ joinWith sep l'
  end.

(** [classes.filter(Boolean).join(' ')] *)
Definition cn (classes : list value) : jsstring :=
  joinWith (js " ")
    (omap (fun v => match v with
                    | VString (c :: s) => Some (c :: s)
                    | _ => None
                    end) classes).

Definition cardBaseStyles : gmap string css :=
  {[ "borderRadius" := CssValue "0.5rem";
     "border" := CssValue "1px solid #e5e7eb";
     "backgroundColor" := CssValue "white";
     "color" := CssValue "#1f2937";
     "boxShadow" := CssValue "0 1px 3px 0 rgb(0 0 0 / 0.1)";
     "transition" := CssValue "all 0.2s" ]}.

Definition variantStyles (v : Variant) : gmap string css :=
  match v with
  | VariantDefault =>
      spread [ cardBaseStyles;
               {[ ":hover" := CssNested
                    {[ "boxShadow" := "0 4px 6px -1px rgb(0 0 0 / 0.1), 0 2px 4px -2px rgb(0 0 0 / 0.1)" ]} ]} ]
  | Featured =>
      spread [ cardBaseStyles;
               {[ "border" := CssValue "1px solid rgb(59 130 246 / 0.2)";
                  "background" := CssValue "linear-gradient(to bottom right, rgb(59 130 246 / 0.05), rgb(59 130 246 / 0.1))";
                  "boxShadow" := CssValue "0 4px 6px -1px rgb(0 0 0 / 0.1), 0 2px 4px -2px rgb(0 0 0 / 0.1)" ]} ]
  | Interactive =>
      spread [ cardBaseStyles;
               {[ "cursor" := CssValue "pointer";
                  ":hover" := CssNested
                    {[ "borderColor" := "rgb(59 130 246 / 0.4)";
                       "boxShadow" := "0 4px 6px -1px rgb(0 0 0 / 0.1), 0 2px 4px -2px rgb(0 0 0 / 0.1)" ]};
                  ":active" := CssNested {[ "transform" := "scale(0.98)" ]} ]} ]
  | Compact =>
      spread [ cardBaseStyles;
               {[ "padding" := CssValue "0.75rem";
                  "boxShadow" := CssValue "0 1px 2px 0 rgb(0 0 0 / 0.05)" ]} ]
  | VariantStatus =>
      spread [ cardBaseStyles; {[ "borderLeftWidth" := CssValue "4px" ]} ]
  end.

Definition sizeStyles (s : Size) : gmap string css :=
  match s with
  | Sm => {[ "padding" := CssValue "1rem"; "gap" := CssValue "0.5rem" ]}
  | SizeDefault => {[ "padding" := CssValue "1.5rem"; "gap" := CssValue "1rem" ]}
  | Lg => {[ "padding" := CssValue "2rem"; "gap" := CssValue "1.5rem" ]}
  end.

Definition statusStyles (s : Status) : gmap string css :=
  match s with
  | Success => {[ "borderLeftColor" := CssValue "#10b981";
                  "backgroundColor" := CssValue "rgb(34 197 94 / 0.05)" ]}
  | Warning => {[ "borderLeftColor" := CssValue "#f59e0b";
                  "backgroundColor" := CssValue "rgb(245 158 11 / 0.05)" ]}
  | Error => {[ "borderLeftColor" := CssValue "#ef4444";
                "backgroundColor" := CssValue "rgb(239 68 68 / 0.05)" ]}
  | Info => {[ "borderLeftColor" := CssValue "#3b82f6";
               "backgroundColor" := CssValue "rgb(59 130 246 / 0.05)" ]}
  | StatusNone => ∅
  end.

(** [className = ''] in a parameter pattern: the default replaces
    [undefined] only. *)
Definition classNameOr (v : value) : value :=
  match v with
  | VUndefined => VString []
  | _ => v
  end.

(** The sub-components: [({ className = '', children, ...props }) => ...]. *)
Definition CardHeader (props : gmap string attr) (children : list Node) : Node :=
  Elem "div" None
    (delete "className" props
     ∪ {[ "className" := AString (cn [VString (js "flex flex-col");
                                       classNameOr (classNameOf props)]);
          "style" := AStyle {[ "marginBottom" := CssValue "0.375rem" ]} ]})
    children.

Definition CardTitle (props : gmap string attr) (children : list Node) : Node :=
  Elem "h3" None
    (delete "className" props
     ∪ {[ "className" := AString (cn [VString (js "font-semibold leading-none tracking-tight");
                                       classNameOr (classNameOf props)]);
          "style" := AStyle {[ "fontSize" := CssValue "1.125rem";
                               "fontWeight" := CssValue "600";
                               "lineHeight" := CssValue "1";
                               "letterSpacing" := CssValue "-0.025em";
                               "marginBottom" := CssValue "0.5rem" ]} ]})
    children.

Definition CardDescription (props : gmap string attr) (children : list Node) : Node :=
  Elem "p" None
    (delete "className" props
     ∪ {[ "className" := AString (cn [VString (js "text-sm text-muted-foreground leading-relaxed");
                                       classNameOr (classNameOf props)]);
          "style" := AStyle {[ "fontSize" := CssValue "0.875rem";
                               "color" := CssValue "#6b7280";
                               "lineHeight" := CssValue "1.6" ]} ]})
    children.

Definition CardContent (props : gmap string attr) (children : list Node) : Node :=
  Elem "div" None
    (delete "className" props
     ∪ {[ "className" := AString (cn [VString (js ""); classNameOr (classNameOf props)]);
          "style" := AStyle {[ "paddingTop" := CssValue "0" ]} ]})
    children.

Definition CardFooter (props : gmap string attr) (children : list Node) : Node :=
  Elem "div" None
    (delete "className" props
     ∪ {[ "className" := AString (cn [VString (js "flex items-center");
                                       classNameOr (classNameOf props)]);
          "style" := AStyle {[ "paddingTop" := CssValue "1rem";
                               "borderTop" := CssValue "1px solid rgb(229 231 235 / 0.5)";
                               "display" := CssValue "flex";
                               "alignItems" := CssValue "center" ]} ]})
    children.

Record CardProps := {
  className : value;
  variant : option Variant;
  size : option Size;
  status : option Status;
  title : value;
  description : value;
  showValidation : option bool;
  onValidationChange : option Observer;
  style : option (gmap string css);
  children : option (list Node);
  forwardedRef : option nat;
  (** every other attribute the caller passed *)
  others : gmap string attr
}.

Definition destructured : list string :=
  ["className"; "variant"; "size"; "status"; "title"; "description";
   "showValidation"; "onValidationChange"; "style"; "children"].

Definition restProps (p : CardProps) : gmap string attr :=
  foldr delete (others p) destructured.

Definition errorView (p : CardProps) (validation : CardValidation) : Node :=
  Elem "div" (forwardedRef p)
    (restProps p
     ∪ {[ "className" := AString (cn [VString (js "card card-error");
                                       classNameOr (className p)]);
          "style" := AStyle (spread [ variantStyles VariantStatus;
                                      sizeStyles (default SizeDefault (size p));
                                      statusStyles Error;
                                      default ∅ (style p) ]);
          "role" := AString (js "alert");
          "aria-live" := AString (js "polite") ]})
    [ CardHeader ∅
        [ CardTitle
            {[ "style" := AStyle {[ "color" := CssValue "#dc2626";
                                    "display" := CssValue "flex";
                                    "alignItems" := CssValue "center";
                                    "gap" := CssValue "0.5rem" ]} ]}
            [ Elem "svg" None
                {[ "style" := AStyle {[ "height" := CssValue "1.25rem";
                                        "width" := CssValue "1.25rem" ]};
                   "fill" := AString (js "none");
                   "viewBox" := AString (js "0 0 24 24");
                   "stroke" := AString (js "currentColor") ]}
                [iconPath];
              Text (js "Invalid Card Configuration") ] ];
      CardContent ∅
        [ Elem "p" None
            {[ "style" := AStyle {[ "fontSize" := CssValue "0.875rem";
                                    "color" := CssValue "#dc2626" ]} ]}
            [ Expr (VString (message validation)) ] ] ].

(** [...(variant === 'status' ? statusStyles[status] : {})] *)
Definition statusPart (p : CardProps) : gmap string css :=
  if bool_decide (default VariantDefault (variant p) = VariantStatus)
  then statusStyles (default StatusNone (status p))
  else ∅.

Definition customView (p : CardProps) (kids : list Node) : Node :=
  Elem "div" (forwardedRef p)
    (restProps p
     ∪ {[ "className" := AString (cn [VString (js "card"); classNameOr (className p)]);
          "style" := AStyle (spread [ variantStyles (default VariantDefault (variant p));
                                      sizeStyles (default SizeDefault (size p));
                                      statusPart p;
                                      default ∅ (style p) ]);
          "role" := AString (js "article") ]})
    kids.

Definition normalView (p : CardProps) : Node :=
  Elem "div" (forwardedRef p)
    (restProps p
     ∪ {[ "className" := AString (cn [VString (js "card"); classNameOr (className p)]);
          "style" := AStyle (spread [ variantStyles (default VariantDefault (variant p));
                                      sizeStyles (default SizeDefault (size p));
                                      statusPart p;
                                      {[ "display" := CssValue "flex";
                                         "flexDirection" := CssValue "column" ]};
                                      default ∅ (style p) ]);
          "role" := AString (js "article");
          "aria-labelledby" := AString (js "card-title");
          "aria-describedby" := AString (js "card-description") ]})
    [ CardHeader ∅
        [ CardTitle {[ "id" := AString (js "card-title") ]} [ Expr (title p) ] ];
      CardContent ∅
        [ CardDescription {[ "id" := AString (js "card-description") ]}
            [ Expr (description p) ] ] ].

Definition Card `{StringRuntime} (p : CardProps) (σ : Store)
  : result (Render * Store) :=
  validation ← validateCardProps (title p) (description p);
  let '(r, σ') := alloc validation σ in
  let eff :=
    {| effect_body :=
         match onValidationChange p with
         | Some f => [Called f validation]
         | None => []
         end;
       effect_deps := [DepObject r; DepCallback (onValidationChange p)] |} in
  if negb (isValid validation) && default false (showValidation p) then
    mret ({| tree := errorView p validation; effect := eff |}, σ')
  else
    match children p with
    | Some kids => mret ({| tree := customView p kids; effect := eff |}, σ')
    | None => mret ({| tree := normalView p; effect := eff |}, σ')
    end.

Definition withLook (var : option Variant) (st : option Status) (p : CardProps)
  : CardProps :=
  {| className := className p; variant := var; size := size p; status := st;
     title := title p; description := description p;
     showValidation := showValidation p;
     onValidationChange := onValidationChange p;
     style := style p; children := children p;
     forwardedRef := forwardedRef p; others := others p |}.



End Jsx.

(** ** The framework's side of a render

    After a commit the framework runs an effect when the component has
    just mounted, or when some entry of the dependency array differs, by
    [Object.is], from the entry of the previous render.  An instance keeps
    the store and the dependency array of its last render. *)

Record Fiber := {
  store : Store;
  lastDeps : option (list Dep)
}.

Definition unmounted : Fiber := {| store := []; lastDeps := None |}.

Definition depsChanged (prev : option (list Dep)) (next : list Dep) : bool :=
  match prev with
  | None => true
  | Some d => negb (bool_decide (d = next))
  end.

Definition Component (P : Type) := P -> Store -> result (Render * Store).

(** One render of a live instance: the component runs, its tree is
    committed, then the effect runs if its dependencies changed. *)
Definition renderPass {P} (C : Component P) (p : P) (f : Fiber)
  : result (list Event * Fiber) :=
  '(r, σ') ← C p (store f);
  let deps := effect_deps (effect r) in
  let fired := if depsChanged (lastDeps f) deps then effect_body (effect r) else [] in
  mret (Committed (tree r) :: fired, {| store := σ'; lastDeps := Some deps |}).

(** The renders of an instance, one per props it is given. *)
Fixpoint lifetime {P} (C : Component P) (ps : list P) (f : Fiber)
  : result (list Event * Fiber) :=
  match ps with
  | [] => mret ([], f)
  | p :: ps' =>
      '(es, f') ← renderPass C p f;
      '(es', f'') ← lifetime C ps' f';
      mret (es ++ es', f'')
  end.

(** A stand-in for the two style helpers, to run the component on examples:
    the classes joined with spaces, defaults filled in. *)
Definition joinStyle : StyleSystem :=
  {| cva := fun base cfg a =>
       Jsx.cn [ VString (js base);
                VString (js (variants_variant cfg
                               (default (defaultVariants_variant cfg) (cva_variant a))));
                VString (js (variants_size cfg
                               (default (defaultVariants_size cfg) (cva_size a))));
                VString (js (variants_status cfg
                               (default (defaultVariants_status cfg) (cva_status a))));
                cva_className a ];
     cn := Jsx.cn |}.

(** ** The resolver as the specification words it *)

Inductive RenderMode := Normal | ValidationError.

#[global] Instance RenderMode_eq_dec : EqDecision RenderMode.
Proof. solve_decision. Defined.

Definition resolveRenderMode (verdict : CardValidation) (showValidation : bool)
  : RenderMode :=
  if negb (isValid verdict) && showValidation then ValidationError else Normal.

(** ** Looking into a tree *)

Definition childrenOf (n : Node) : list Node :=
  match n with
  | Elem _ _ _ c => c
  | _ => []
  end.

Definition attrsOf (n : Node) : gmap string attr :=
  match n with
  | Elem _ _ a _ => a
  | _ => ∅
  end.

(** The node reached by taking the [i]-th child at every step of a path. *)
Fixpoint descend (path : list nat) (n : Node) : option Node :=
  match path with
  | [] => Some n
  | i :: path' => childrenOf n !! i ≫= descend path'
  end.

(** The observer calls among some events. *)
Definition calls (es : list Event) : list (Observer * CardValidation) :=
  omap (fun e => match e with
                 | Called f v => Some (f, v)
                 | Committed _ => None
                 end) es.

(** An instance whose last dependency array holds a verdict object of its
    own store, as every array a [Card] registers does. *)
Definition fiber_ok (f : Fiber) : Prop :=
  match lastDeps f with
  | None => True
  | Some deps =>
      exists r cb, deps = [DepObject r; DepCallback cb] /\ r < length (store f)
  end.

(** [onValidationChange?.(validation)] and the events of one render of a
    [Card]: the commit, then the call of the observer if there is one. *)
Definition observerCalls (observer : option Observer) (v : CardValidation)
  : list Event :=
  match observer with
  | Some f => [Called f v]
  | None => []
  end.

Definition passEvents (t : Node) (observer : option Observer)
    (v : CardValidation) : list Event :=
  Committed t :: observerCalls observer v.

(** The layers under the caller's own style, by what [Card] renders. *)
Definition styleLayers (q : Jsx.CardProps) (mode : RenderMode)
  : list (gmap string css) :=
  match mode with
  | ValidationError =>
      [ Jsx.variantStyles VariantStatus;
        Jsx.sizeStyles (default SizeDefault (Jsx.size q));
        Jsx.statusStyles Error ]
  | Normal =>
      [ Jsx.variantStyles (default VariantDefault (Jsx.variant q));
        Jsx.sizeStyles (default SizeDefault (Jsx.size q));
        Jsx.statusPart q ]
      ++ match Jsx.children q with
         | Some _ => []
         | None => [ {[ "display" := CssValue "flex";
                        "flexDirection" := CssValue "column" ]} ]
         end
  end.

(** ** The state of CardExamples

    [const [validationState, setValidationState] = useState(null)] and the
    one card of the page that is given [setValidationState] as its
    observer.  The rest of the page is static markup and cards without an
    observer, which hold no state. *)

Definition setValidationState : Observer := 0.

Definition watchedCard : Tsx.CardProps :=
  {| Tsx.className := VUndefined; Tsx.variant := None; Tsx.size := None;
     Tsx.status := None;
     Tsx.title := VString (js "");
     Tsx.description :=
       VString (js "This card demonstrates validation error handling when the title is empty");
     Tsx.showValidation := Some true;
     Tsx.onValidationChange := Some setValidationState;
     Tsx.forwardedRef := None; Tsx.others := ∅ |}.

Record Examples := {
  validationState : option Ref;
  watched : Fiber
}.

Definition examplesMounting : Examples :=
  {| validationState := None; watched := unmounted |}.

(** One render of the page and the effects after its commit.  The page
    renders the watched card; when the card's effect calls
    [setValidationState(o)], [o] is the verdict object of this render, the
    newest of the card's store; the setter stores it and asks for another
    render of the page unless [o] is, by [Object.is], the object already
    stored. *)
Definition examplesPass `{StringRuntime} `{StyleSystem} (e : Examples)
  : result (Examples * bool) :=
  '(es, f) ← renderPass Tsx.Card watchedCard (watched e);
  let handed := length (store (watched e)) in
  match calls es with
  | [] => mret ({| validationState := validationState e; watched := f |}, false)
  | _ :: _ =>
      mret ({| validationState := Some handed; watched := f |},
            negb (bool_decide (validationState e = Some handed)))
  end.

(** Rendering the page until a render asks for no further one, for at most
    [fuel] renders: the settled page, or nothing when the renders run
    out. *)
Fixpoint examplesSettle `{StringRuntime} `{StyleSystem} (fuel : nat) (e : Examples)
  : result (option Examples) :=
  match fuel with
  | 0 => mret None
  | S fuel' =>
      '(e', again) ← examplesPass e;
      if (again : bool) then examplesSettle fuel' e' else mret (Some e')
  end.

(** The stored object, if any, is one of the card's store. *)
Definition examples_ok (e : Examples) : Prop :=
  fiber_ok (watched e)
  /\ forall r, validationState e = Some r -> r < length (store (watched e)).

(** * Facts about the validator *)

Section Validator.
Context `{StringRuntime}.

Lemma trimStart_nil_iff (s : jsstring) :
  trimStart s = [] <-> forallb isWhiteSpace s = true.
Proof.
  induction s as [|c s IH]; simpl; [tauto|].
  destruct (isWhiteSpace c); simpl; [exact IH|].
  split; intros; discriminate.
Qed.

Lemma trimStart_snoc_keep (s : jsstring) (c : code_unit) :
  isWhiteSpace c = false -> trimStart (s ++ [c]) <> [].
Proof.
  intros Hc. induction s as [|a s IH]; simpl.
  - rewrite Hc. discriminate.
  - destruct (isWhiteSpace a); [exact IH | discriminate].
Qed.

Lemma trimStart_head (s u : jsstring) (c : code_unit) :
  trimStart s = c :: u -> isWhiteSpace c = false.
Proof.
  induction s as [|a s IH]; simpl; [discriminate|].
  destruct (isWhiteSpace a) eqn:E; [exact IH | congruence].
Qed.

(** A string trims to the empty string exactly when every code unit of
    it is whitespace. *)
Lemma trim_nil_iff (s : jsstring) :
  trim s = [] <-> forallb isWhiteSpace s = true.
Proof.
  unfold trim, trimEnd. split.
  - intros Ht. apply trimStart_nil_iff.
    destruct (trimStart s) as [|c u] eqn:Hu; [reflexivity|].
    exfalso. apply trimStart_head in Hu.
    apply (f_equal (@rev code_unit)) in Ht. rewrite rev_involutive in Ht.
    simpl in Ht. revert Ht. apply trimStart_snoc_keep, Hu.
  - intros Hall. apply trimStart_nil_iff in Hall. rewrite Hall. reflexivity.
Qed.

Lemma trimStart_forallb (P : code_unit -> bool) (s : jsstring) :
  forallb P s = true -> forallb P (trimStart s) = true.
Proof.
  induction s as [|c s IH]; simpl; [tauto|].
  intros Hs. destruct (isWhiteSpace c); [|exact Hs].
  apply IH. apply andb_true_iff in Hs. tauto.
Qed.

Lemma rev_forallb (P : code_unit -> bool) (s : jsstring) :
  forallb P s = true -> forallb P (rev s) = true.
Proof.
  rewrite !forallb_forall. intros Hs x Hx. apply Hs, in_rev, Hx.
Qed.

(** Trimming only removes code units. *)
Lemma trim_forallb (P : code_unit -> bool) (s : jsstring) :
  forallb P s = true -> forallb P (trim s) = true.
Proof.
  intros Hs. unfold trim, trimEnd.
  auto using rev_forallb, trimStart_forallb.
Qed.

(** The guard [!v || v.trim().length === 0] never throws, and says
    whether [v] is absent or blank. *)
Lemma blank_guard (v : value) :
  orElse (mret (negb (truthy v))) (t ← call_trim v; mret (length t =? 0))
  = Ok (absentOrBlank v).
Proof.
  destruct v as [| |[|c s]]; try reflexivity.
  cbn -[trim]. destruct (trim (c :: s)); reflexivity.
Qed.

Lemma not_blank_string (v : value) :
  absentOrBlank v = false -> exists s, v = VString s /\ trim s <> [].
Proof.
  destruct v as [| |s]; simpl; try discriminate.
  intros Hb. exists s. split; [reflexivity|].
  intros Ht. rewrite bool_decide_eq_false in Hb. contradiction.
Qed.

(** The code computes the verdict of the six rules, and throws on no
    input. *)
Lemma validateCardProps_spec (title description : value) :
  validateCardProps title description = Ok (spec_validate title description).
Proof.
  unfold validateCardProps, spec_validate, classify.
  rewrite (blank_guard title), (blank_guard description).
  cbn [mbind result_bind mret result_ret].
  destruct (absentOrBlank title) eqn:Ht; [reflexivity|].
  destruct (not_blank_string _ Ht) as (s & -> & _).
  cbn [get_length mbind result_bind mret result_ret rawLength].
  destruct (100 <? length s) eqn:Hlen; [reflexivity|].
  destruct (absentOrBlank description) eqn:Hd; [reflexivity|].
  destruct (not_blank_string _ Hd) as (d & -> & _).
  cbn [get_length mbind result_bind mret result_ret rawLength].
  destruct (500 <? length d) eqn:Hlen'; [reflexivity|].
  cbn [call_trim call_toLowerCase mbind result_bind mret result_ret trimmedLower].
  destruct (bool_decide (toLowerCase (trim s) = toLowerCase (trim d)));
    reflexivity.
Qed.

Lemma classify_rule (title description : value) :
  ruleOf (classify title description) title description.
Proof.
  unfold classify.
  destruct (absentOrBlank title) eqn:Ht; [exact Ht|].
  destruct (Nat.ltb_spec 100 (rawLength title)); [simpl; tauto|].
  destruct (absentOrBlank description) eqn:Hd; [simpl; tauto|].
  destruct (Nat.ltb_spec 500 (rawLength description)); [simpl; tauto|].
  case_bool_decide; simpl; tauto.
Qed.

(** The rules exclude one another: a kind whose rule holds is the kind
    the classifier returns. *)
Lemma rule_classify (k : VerdictKind) (title description : value) :
  ruleOf k title description -> classify title description = k.
Proof.
  intros Hk. pose proof (classify_rule title description) as Hc.
  destruct k, (classify title description); simpl in Hk, Hc;
    try reflexivity; exfalso; intuition (try congruence; try lia).
Qed.

Lemma recoverKind_canonical (k : VerdictKind) (title description : value) :
  recoverKind (canonicalMessage k title description) = Some k.
Proof. destruct k; reflexivity. Qed.

Lemma canonicalMessage_kind (k k' : VerdictKind) (t d t' d' : value) :
  canonicalMessage k t d = canonicalMessage k' t' d' -> k = k'.
Proof.
  intros Hm. apply (f_equal recoverKind) in Hm.
  rewrite !recoverKind_canonical in Hm. congruence.
Qed.

(** On ASCII text every runtime agrees with [asciiRuntime]. *)
Lemma spec_validate_ascii (s d : jsstring) :
  forallb isAscii s = true -> forallb isAscii d = true ->
  spec_validate (VString s) (VString d)
  = @spec_validate asciiRuntime (VString s) (VString d).
Proof.
  intros Hs Hd. unfold spec_validate, classify, trimmedLower.
  rewrite !toLowerCase_ascii by (apply trim_forallb; assumption).
  reflexivity.
Qed.

End Validator.

Lemma validateCardProps_ascii `{StringRuntime} (s d : jsstring) :
  forallb isAscii s = true -> forallb isAscii d = true ->
  validateCardProps (VString s) (VString d)
  = @validateCardProps asciiRuntime (VString s) (VString d).
Proof.
  intros Hs Hd. rewrite validateCardProps_spec.
  rewrite (@validateCardProps_spec asciiRuntime).
  f_equal. apply spec_validate_ascii; assumption.
Qed.

(** Evaluating the validator on an ASCII example. *)
Ltac run_validator :=
  rewrite validateCardProps_ascii by reflexivity; vm_compute; reflexivity.

(** * Properties of the validator *)

(** C1.  For every title and description [validateCardProps] returns the
    verdict of the six rules taken in their order: the first rule that
    fires decides the kind, and the verdict carries that kind's one
    canonical message (a kind whose rule holds, i.e. its own condition
    together with the failure of every earlier rule, is the kind
    returned).  A title that is absent, empty or all whitespace is
    MissingTitle, and its message is neither a too-long message nor the
    duplicate-content message. *)
Theorem validate_first_failing_rule_wins `{StringRuntime}
    (title description : value) :
  validateCardProps title description = Ok (spec_validate title description)
  /\ (forall k, ruleOf k title description ->
        validateCardProps title description
        = Ok (verdictOfKind k title description))
  /\ (title = VUndefined \/ title = VNull
      \/ (exists s, title = VString s /\ forallb isWhiteSpace s = true) ->
      validateCardProps title description
      = Ok {| isValid := false;
              message := js "Card title is required and cannot be empty. Please provide a meaningful title to describe your content." |}
      /\ forall t' d',
           canonicalMessage MissingTitle title description
           <> canonicalMessage TitleTooLong t' d'
           /\ canonicalMessage MissingTitle title description
              <> canonicalMessage DuplicateContent t' d').
Proof.
  split; [apply validateCardProps_spec|]. split.
  - intros k Hk. rewrite validateCardProps_spec. unfold spec_validate.
    rewrite (rule_classify k) by exact Hk. reflexivity.
  - intros Habsent.
    assert (Hb : absentOrBlank title = true).
    { destruct Habsent as [-> | [-> | (s & -> & Hs)]]; try reflexivity.
      simpl. apply bool_decide_eq_true, trim_nil_iff, Hs. }
    split.
    + rewrite validateCardProps_spec. unfold spec_validate.
      rewrite (rule_classify MissingTitle) by exact Hb. reflexivity.
    + intros t' d'. split; intros Hm;
        apply canonicalMessage_kind in Hm; discriminate.
Qed.

Lemma validate_first_failing_rule_wins_witness :
  (@ruleOf asciiRuntime Valid (VString (js "Valid Title"))
     (VString (js "Valid description with enough content"))
   /\ @validateCardProps asciiRuntime (VString (js "Valid Title"))
        (VString (js "Valid description with enough content"))
      = Ok {| isValid := true;
              message := js "Card content is valid and provides meaningful information to users." |})
  /\ @validateCardProps asciiRuntime (VString (js "   "))
       (VString (js "Valid description"))
     = Ok {| isValid := false;
             message := js "Card title is required and cannot be empty. Please provide a meaningful title to describe your content." |}.
Proof.
  split.
  - assert (Hr : @ruleOf asciiRuntime Valid (VString (js "Valid Title"))
                   (VString (js "Valid description with enough content"))).
    { vm_compute. repeat split; try lia. discriminate. }
    split; [exact Hr|].
    exact (proj1 (proj2 (@validate_first_failing_rule_wins asciiRuntime
                           (VString (js "Valid Title"))
                           (VString (js "Valid description with enough content"))))
             Valid Hr).
  - apply (proj2 (proj2 (@validate_first_failing_rule_wins asciiRuntime
                           (VString (js "   "))
                           (VString (js "Valid description"))))).
    right. right. exists (js "   "). split; reflexivity.
Defined.

(** C3.  The length thresholds are strict and are taken on the untrimmed
    strings.  For a title that is not blank, the verdict is TitleTooLong
    exactly when the raw title has at least 101 code units, and its
    message then interpolates that raw length and the limit 100.  When
    moreover the title has at most 100 code units and the description is
    not blank, the verdict is DescriptionTooLong exactly when the raw
    description has at least 501 code units, its message interpolating
    that length and the limit 500.  A title of length 100 and a
    description of length 500 pass; lengths 101 and 501 give the messages
    with "101/100 characters" and "501/500 characters". *)
Theorem length_thresholds_are_strict `{StringRuntime} :
  (forall (s : jsstring) (description : value),
      trim s <> [] ->
      ((exists v, validateCardProps (VString s) description = Ok v
                  /\ recoverKind (message v) = Some TitleTooLong)
       <-> 101 <= length s)
      /\ (101 <= length s ->
          validateCardProps (VString s) description
          = Ok {| isValid := false;
                  message := js "Card title is too long ("
                             ++ numberToString (length s)
                             ++ js "/100 characters). Please use a concise title that summarizes your content effectively." |}))
  /\ (forall s d : jsstring,
      trim s <> [] -> length s <= 100 -> trim d <> [] ->
      ((exists v, validateCardProps (VString s) (VString d) = Ok v
                  /\ recoverKind (message v) = Some DescriptionTooLong)
       <-> 501 <= length d)
      /\ (501 <= length d ->
          validateCardProps (VString s) (VString d)
          = Ok {| isValid := false;
                  message := js "Card description is too long ("
                             ++ numberToString (length d)
                             ++ js "/500 characters). Please provide a concise description that highlights the key information." |}))
  /\ validateCardProps (VString (repeatUnit 97 100)) (VString (js "Valid description"))
     = Ok {| isValid := true;
             message := js "Card content is valid and provides meaningful information to users." |}
  /\ validateCardProps (VString (repeatUnit 97 101)) (VString (js "Valid description"))
     = Ok {| isValid := false;
             message := js "Card title is too long (101/100 characters). Please use a concise title that summarizes your content effectively." |}
  /\ validateCardProps (VString (js "Valid title")) (VString (repeatUnit 97 500))
     = Ok {| isValid := true;
             message := js "Card content is valid and provides meaningful information to users." |}
  /\ validateCardProps (VString (js "Valid title")) (VString (repeatUnit 97 501))
     = Ok {| isValid := false;
             message := js "Card description is too long (501/500 characters). Please provide a concise description that highlights the key information." |}.
Proof.
  assert (Hnb : forall s, trim s <> [] -> absentOrBlank (VString s) = false).
  { intros s Hs. simpl. apply bool_decide_eq_false. exact Hs. }
  repeat apply conj; try run_validator.
  - (* title *)
    intros s description Hs. split; [split|].
    + intros (v & Hv & Hk). rewrite validateCardProps_spec in Hv.
      injection Hv as <-. unfold spec_validate, verdictOfKind in Hk.
      simpl in Hk. rewrite recoverKind_canonical in Hk. injection Hk as Hk.
      pose proof (classify_rule (VString s) description) as Hr.
      rewrite Hk in Hr. simpl in Hr. lia.
    + intros Hlen. eexists. split; [apply validateCardProps_spec|].
      unfold spec_validate, verdictOfKind. simpl.
      rewrite recoverKind_canonical. f_equal. apply rule_classify.
      simpl. split; [apply bool_decide_eq_false, Hs | lia].
    + intros Hlen. rewrite validateCardProps_spec. unfold spec_validate.
      rewrite (rule_classify TitleTooLong); [reflexivity|].
      split; [apply Hnb, Hs | simpl; lia].
  - (* description *)
    intros s d Hs Hlen Hd. split; [split|].
    + intros (v & Hv & Hk). rewrite validateCardProps_spec in Hv.
      injection Hv as <-. unfold spec_validate, verdictOfKind in Hk.
      simpl in Hk. rewrite recoverKind_canonical in Hk. injection Hk as Hk.
      pose proof (classify_rule (VString s) (VString d)) as Hr.
      rewrite Hk in Hr. simpl in Hr. lia.
    + intros Hlen'. eexists. split; [apply validateCardProps_spec|].
      unfold spec_validate, verdictOfKind. simpl.
      rewrite recoverKind_canonical. f_equal. apply rule_classify.
      pose proof (Hnb _ Hs). pose proof (Hnb _ Hd). simpl in *. intuition lia.
    + intros Hlen'. rewrite validateCardProps_spec. unfold spec_validate.
      rewrite (rule_classify DescriptionTooLong); [reflexivity|].
      pose proof (Hnb _ Hs). pose proof (Hnb _ Hd). simpl in *. intuition lia.
Qed.

Lemma length_thresholds_are_strict_witness :
  trim (repeatUnit 97 101) <> []
  /\ 101 <= length (repeatUnit 97 101)
  /\ @validateCardProps asciiRuntime (VString (repeatUnit 97 101)) VUndefined
     = Ok {| isValid := false;
             message := js "Card title is too long ("
                        ++ numberToString (length (repeatUnit 97 101))
                        ++ js "/100 characters). Please use a concise title that summarizes your content effectively." |}
  /\ trim (js "Valid title") <> []
  /\ length (js "Valid title") <= 100
  /\ trim (repeatUnit 97 501) <> []
  /\ 501 <= length (repeatUnit 97 501)
  /\ @validateCardProps asciiRuntime (VString (js "Valid title"))
       (VString (repeatUnit 97 501))
     = Ok {| isValid := false;
             message := js "Card description is too long ("
                        ++ numberToString (length (repeatUnit 97 501))
                        ++ js "/500 characters). Please provide a concise description that highlights the key information." |}.
Proof.
  assert (H1 : trim (repeatUnit 97 101) <> []) by (vm_compute; discriminate).
  assert (H2 : 101 <= length (repeatUnit 97 101)) by (vm_compute; lia).
  assert (H3 : trim (js "Valid title") <> []) by (vm_compute; discriminate).
  assert (H4 : length (js "Valid title") <= 100) by (vm_compute; lia).
  assert (H5 : trim (repeatUnit 97 501) <> []) by (vm_compute; discriminate).
  assert (H6 : 501 <= length (repeatUnit 97 501)) by (vm_compute; lia).
  repeat apply conj; try assumption.
  - exact (proj2 (proj1 (@length_thresholds_are_strict asciiRuntime)
                    (repeatUnit 97 101) VUndefined H1) H2).
  - exact (proj2 (proj1 (proj2 (@length_thresholds_are_strict asciiRuntime))
                    (js "Valid title") (repeatUnit 97 501) H3 H4 H5) H6).
Defined.

(** C4.  The duplicate check compares the trimmed, lower-cased title with
    the trimmed, lower-cased description: "Same Content" against
    "same content" is DuplicateContent, and "  Valid Title  " against
    "  Valid description  " is Valid.  Once the presence and length rules
    pass, the verdict is DuplicateContent exactly when the two trimmed,
    lower-cased texts are equal, and Valid exactly when they differ.  The
    length rules count the surrounding whitespace: a one-letter title
    padded to 101 code units is TitleTooLong. *)
Theorem duplicate_check_trims_and_lowercases `{StringRuntime} :
  validateCardProps (VString (js "Same Content")) (VString (js "same content"))
  = Ok {| isValid := false;
          message := js "Card title and description should be different. The description should provide additional context beyond the title." |}
  /\ validateCardProps (VString (js "  Valid Title  "))
       (VString (js "  Valid description  "))
     = Ok {| isValid := true;
             message := js "Card content is valid and provides meaningful information to users." |}
  /\ validateCardProps
       (VString (repeatUnit 32 50 ++ js "a" ++ repeatUnit 32 50))
       (VString (js "Valid description"))
     = Ok {| isValid := false;
             message := js "Card title is too long (101/100 characters). Please use a concise title that summarizes your content effectively." |}
  /\ (forall s d : jsstring,
      trim s <> [] -> length s <= 100 -> trim d <> [] -> length d <= 500 ->
      (validateCardProps (VString s) (VString d)
       = Ok {| isValid := false;
               message := js "Card title and description should be different. The description should provide additional context beyond the title." |}
       <-> toLowerCase (trim s) = toLowerCase (trim d))
      /\ (validateCardProps (VString s) (VString d)
          = Ok {| isValid := true;
                  message := js "Card content is valid and provides meaningful information to users." |}
          <-> toLowerCase (trim s) <> toLowerCase (trim d))).
Proof.
  repeat apply conj; try run_validator.
  intros s d Hs Hls Hd Hld.
  assert (Hbs : absentOrBlank (VString s) = false)
    by (simpl; apply bool_decide_eq_false; exact Hs).
  assert (Hbd : absentOrBlank (VString d) = false)
    by (simpl; apply bool_decide_eq_false; exact Hd).
  rewrite validateCardProps_spec. unfold spec_validate.
  pose proof (classify_rule (VString s) (VString d)) as Hr.
  split; split.
  - intros Hv. injection Hv as _ Hm.
    apply (canonicalMessage_kind _ DuplicateContent _ _ VUndefined VUndefined) in Hm.
    rewrite Hm in Hr. simpl in Hr. tauto.
  - intros Heq. rewrite (rule_classify DuplicateContent); [reflexivity|].
    simpl in *. tauto.
  - intros Hv. injection Hv as _ Hm.
    apply (canonicalMessage_kind _ Valid _ _ VUndefined VUndefined) in Hm.
    rewrite Hm in Hr. simpl in Hr. tauto.
  - intros Hne. rewrite (rule_classify Valid); [reflexivity|].
    simpl in *. tauto.
Qed.

Lemma duplicate_check_trims_and_lowercases_witness :
  trim (js " Hello ") <> [] /\ length (js " Hello ") <= 100
  /\ trim (js "hELLO") <> [] /\ length (js "hELLO") <= 500
  /\ @toLowerCase asciiRuntime (trim (js " Hello "))
     = @toLowerCase asciiRuntime (trim (js "hELLO"))
  /\ @validateCardProps asciiRuntime (VString (js " Hello ")) (VString (js "hELLO"))
     = Ok {| isValid := false;
             message := js "Card title and description should be different. The description should provide additional context beyond the title." |}.
Proof.
  assert (H1 : trim (js " Hello ") <> []) by (vm_compute; discriminate).
  assert (H2 : length (js " Hello ") <= 100) by (vm_compute; lia).
  assert (H3 : trim (js "hELLO") <> []) by (vm_compute; discriminate).
  assert (H4 : length (js "hELLO") <= 500) by (vm_compute; lia).
  assert (H5 : @toLowerCase asciiRuntime (trim (js " Hello "))
               = @toLowerCase asciiRuntime (trim (js "hELLO")))
    by (vm_compute; reflexivity).
  repeat apply conj; try assumption.
  exact (proj2 (proj1 (proj2 (proj2 (proj2
           (@duplicate_check_trims_and_lowercases asciiRuntime)))
           (js " Hello ") (js "hELLO") H1 H2 H3 H4)) H5).
Defined.

(** C6.  [validateCardProps] is total and never throws: on every title
    and description, absent ones included, it returns a verdict, and the
    verdict is that of exactly one of the six kinds.  An absent field
    ([undefined] or [null]) gets the verdict of the empty string. *)
Theorem validate_never_throws `{StringRuntime} (title description : value) :
  (exists k, validateCardProps title description
             = Ok (verdictOfKind k title description)
             /\ forall k', validateCardProps title description
                           = Ok (verdictOfKind k' title description) -> k' = k)
  /\ validateCardProps title description <> Throw
  /\ validateCardProps VUndefined description
     = validateCardProps (VString []) description
  /\ validateCardProps VNull description
     = validateCardProps (VString []) description
  /\ validateCardProps title VUndefined = validateCardProps title (VString [])
  /\ validateCardProps title VNull = validateCardProps title (VString []).
Proof.
  rewrite !validateCardProps_spec. repeat apply conj; try reflexivity.
  - exists (classify title description). split; [reflexivity|].
    intros k' Hk. injection Hk as _ Hm.
    symmetry. exact (canonicalMessage_kind _ _ _ _ _ _ Hm).
  - discriminate.
Qed.

Lemma validate_never_throws_witness :
  exists k, @validateCardProps asciiRuntime VUndefined VNull
            = Ok (verdictOfKind k VUndefined VNull)
            /\ k = MissingTitle.
Proof.
  destruct (@validate_never_throws asciiRuntime VUndefined VNull)
    as ((k & Hk & Huniq) & _).
  exists k. split; [exact Hk|].
  symmetry. apply Huniq. vm_compute. reflexivity.
Defined.

(** C9.  The verdict returned for a title and description is valid
    exactly when its message is the success message.  The messages of two
    different kinds are never equal, whatever lengths they interpolate, so
    the kind is read back from the message alone: [recoverKind] returns
    the kind whose rule fired. *)
Theorem message_determines_kind `{StringRuntime} (title description : value) :
  (exists v, validateCardProps title description = Ok v
             /\ (isValid v = true
                 <-> message v = js "Card content is valid and provides meaningful information to users.")
             /\ recoverKind (message v) = Some (classify title description))
  /\ (forall (k k' : VerdictKind) (t d t' d' : value),
         k <> k' -> canonicalMessage k t d <> canonicalMessage k' t' d')
  /\ (forall (k : VerdictKind) (t d : value),
         recoverKind (canonicalMessage k t d) = Some k).
Proof.
  repeat apply conj.
  - eexists. split; [apply validateCardProps_spec|].
    unfold spec_validate, verdictOfKind. simpl. split.
    + rewrite bool_decide_eq_true. split.
      * intros ->. reflexivity.
      * intros Hm.
        exact (canonicalMessage_kind _ Valid _ _ VUndefined VUndefined Hm).
    + apply recoverKind_canonical.
  - intros k k' t d t' d' Hne Hm. apply Hne.
    exact (canonicalMessage_kind _ _ _ _ _ _ Hm).
  - intros k t d. apply recoverKind_canonical.
Qed.

Lemma message_determines_kind_witness :
  TitleTooLong <> DescriptionTooLong
  /\ canonicalMessage TitleTooLong (VString (repeatUnit 97 501)) VUndefined
     <> canonicalMessage DescriptionTooLong VUndefined (VString (repeatUnit 97 501)).
Proof.
  assert (Hne : TitleTooLong <> DescriptionTooLong) by discriminate.
  split; [exact Hne|].
  exact (proj1 (proj2 (@message_determines_kind asciiRuntime VUndefined VUndefined))
           TitleTooLong DescriptionTooLong
           (VString (repeatUnit 97 501)) VUndefined
           VUndefined (VString (repeatUnit 97 501)) Hne).
Defined.

(** * Facts about the components *)

Section Components.
Context `{StringRuntime} `{StyleSystem}.

(** What one run of [Card] returns. *)
Lemma Tsx_Card_eq (p : Tsx.CardProps) (σ : Store) :
  let v := spec_validate (Tsx.title p) (Tsx.description p) in
  Tsx.Card p σ
  = Ok ({| tree := match resolveRenderMode v (default false (Tsx.showValidation p)) with
                   | ValidationError => Tsx.errorView p v
                   | Normal => Tsx.normalView p
                   end;
           effect := {| effect_body := observerCalls (Tsx.onValidationChange p) v;
                        effect_deps := [DepObject (length σ);
                                        DepCallback (Tsx.onValidationChange p)] |} |},
        σ ++ [v]).
Proof.
  intros v. unfold Tsx.Card. rewrite validateCardProps_spec.
  cbn [mbind result_bind mret result_ret alloc]. fold v.
  unfold resolveRenderMode.
  destruct (negb (isValid v) && default false (Tsx.showValidation p));
    reflexivity.
Qed.

Lemma Jsx_Card_eq (p : Jsx.CardProps) (σ : Store) :
  let v := spec_validate (Jsx.title p) (Jsx.description p) in
  Jsx.Card p σ
  = Ok ({| tree := match resolveRenderMode v (default false (Jsx.showValidation p)) with
                   | ValidationError => Jsx.errorView p v
                   | Normal =>
                       match Jsx.children p with
                       | Some kids => Jsx.customView p kids
                       | None => Jsx.normalView p
                       end
                   end;
           effect := {| effect_body := observerCalls (Jsx.onValidationChange p) v;
                        effect_deps := [DepObject (length σ);
                                        DepCallback (Jsx.onValidationChange p)] |} |},
        σ ++ [v]).
Proof.
  intros v. unfold Jsx.Card. rewrite validateCardProps_spec.
  cbn [mbind result_bind mret result_ret alloc]. fold v.
  unfold resolveRenderMode.
  destruct (negb (isValid v) && default false (Jsx.showValidation p));
    [reflexivity|].
  destruct (Jsx.children p); reflexivity.
Qed.

(** The two views are different trees: the title element of the error
    view has two children, that of the normal view one. *)
Lemma Tsx_views_differ (p : Tsx.CardProps) (v : CardValidation) :
  Tsx.errorView p v <> Tsx.normalView p.
Proof.
  intros Heq.
  apply (f_equal (fun n => from_option (fun m => length (childrenOf m)) 0
                               (descend [0; 0] n))) in Heq.
  discriminate Heq.
Qed.

Lemma resolveRenderMode_error (v : CardValidation) (show : bool) :
  resolveRenderMode v show = ValidationError
  <-> isValid v = false /\ show = true.
Proof.
  unfold resolveRenderMode. destruct (isValid v), show; simpl;
    split; intros; try discriminate; intuition congruence.
Qed.

Lemma Tsx_rest_className (p : Tsx.CardProps) :
  Tsx.restProps p !! "className" = None.
Proof. unfold Tsx.restProps. cbn [foldr Tsx.destructured]. apply lookup_delete_eq. Qed.

Lemma Tsx_error_className (p : Tsx.CardProps) (v : CardValidation) :
  attrsOf (Tsx.errorView p v) !! "className"
  = Some (AString
            (cn [VString (Tsx.cardVariants
                            {| cva_variant := Some VariantStatus;
                               cva_size := Tsx.size p;
                               cva_status := Some Error;
                               cva_className := Tsx.className p |});
                 VString (js "animate-in slide-in-from-left-1 duration-200")])).
Proof.
  unfold Tsx.errorView, attrsOf.
  rewrite lookup_union_r by apply Tsx_rest_className.
  apply lookup_insert_eq.
Qed.

Lemma Tsx_normal_className (p : Tsx.CardProps) :
  attrsOf (Tsx.normalView p) !! "className"
  = Some (AString
            (cn [VString (Tsx.cardVariants
                            {| cva_variant := Tsx.variant p;
                               cva_size := Tsx.size p;
                               cva_status := Tsx.status p;
                               cva_className := Tsx.className p |})])).
Proof.
  unfold Tsx.normalView, attrsOf.
  rewrite lookup_union_r by apply Tsx_rest_className.
  apply lookup_insert_eq.
Qed.

End Components.

(** * Properties of the components *)

(** C2.  [Card] returns the error view if and only if the verdict is
    invalid and [showValidation] is true (its default is false); in every
    other case, an invalid verdict with [showValidation] false included,
    it returns the normal view, the ordinary card with the caller's title
    and description. *)
Theorem error_view_iff_invalid_and_shown `{StringRuntime} `{StyleSystem}
    (p : Tsx.CardProps) (σ : Store) :
  exists v r σ',
    validateCardProps (Tsx.title p) (Tsx.description p) = Ok v
    /\ Tsx.Card p σ = Ok (r, σ')
    /\ (resolveRenderMode v (default false (Tsx.showValidation p)) = ValidationError
        <-> isValid v = false /\ Tsx.showValidation p = Some true)
    /\ (tree r = Tsx.errorView p v
        <-> isValid v = false /\ Tsx.showValidation p = Some true)
    /\ (tree r = Tsx.normalView p
        <-> ~ (isValid v = false /\ Tsx.showValidation p = Some true))
    /\ descend [0; 0; 0] (Tsx.normalView p) = Some (Expr (Tsx.title p))
    /\ descend [1; 0; 0] (Tsx.normalView p) = Some (Expr (Tsx.description p)).
Proof.
  eexists _, _, _. split; [apply validateCardProps_spec|].
  split; [apply Tsx_Card_eq|].
  set (v := spec_validate (Tsx.title p) (Tsx.description p)).
  assert (Hshow : forall o : option bool, default false o = true <-> o = Some true).
  { intros [[]|]; simpl; split; intros; congruence. }
  pose proof (resolveRenderMode_error v (default false (Tsx.showValidation p))) as Hm.
  rewrite Hshow in Hm.
  split; [exact Hm|]. cbn [tree].
  destruct (resolveRenderMode v (default false (Tsx.showValidation p))) eqn:Hr.
  - assert (Hn : ~ (isValid v = false /\ Tsx.showValidation p = Some true)).
    { intros Hc. apply Hm in Hc. discriminate. }
    repeat apply conj; try reflexivity; try tauto.
    intros Heq. symmetry in Heq. exfalso. exact (Tsx_views_differ _ _ Heq).
  - assert (Hy : isValid v = false /\ Tsx.showValidation p = Some true)
      by (apply Hm; reflexivity).
    repeat apply conj; try reflexivity; try tauto.
    intros Heq. exfalso. exact (Tsx_views_differ _ _ Heq).
Qed.

Lemma error_view_iff_invalid_and_shown_witness :
  let p := {| Tsx.className := VUndefined; Tsx.variant := None;
              Tsx.size := None; Tsx.status := None;
              Tsx.title := VString (js "");
              Tsx.description := VString (js "Valid description");
              Tsx.showValidation := Some false;
              Tsx.onValidationChange := None;
              Tsx.forwardedRef := None; Tsx.others := ∅ |} in
  exists r σ',
    @Tsx.Card asciiRuntime joinStyle p [] = Ok (r, σ')
    /\ tree r = @Tsx.normalView joinStyle p.
Proof.
  intros p.
  destruct (@error_view_iff_invalid_and_shown asciiRuntime joinStyle p [])
    as (v & r & σ' & _ & Hcard & _ & _ & Hnormal & _).
  exists r, σ'. split; [exact Hcard|].
  apply Hnormal. intros [_ Hshow]. discriminate Hshow.
Defined.

(** C5.  Whenever [Card] returns the error view, the style lookup is asked
    for the variant "status" and the status "error" whatever variant and
    status the caller requested (the same tree is returned for every
    requested variant and status), and the body of the error view is the
    verdict's message, under the heading "Invalid Card Configuration". *)
Theorem error_view_forces_status_error `{StringRuntime} `{StyleSystem}
    (p : Tsx.CardProps) (σ : Store) (v : CardValidation) :
  validateCardProps (Tsx.title p) (Tsx.description p) = Ok v ->
  isValid v = false ->
  Tsx.showValidation p = Some true ->
  exists r σ',
    Tsx.Card p σ = Ok (r, σ')
    /\ tree r = Tsx.errorView p v
    /\ attrsOf (tree r) !! "className"
       = Some (AString
                 (cn [VString (Tsx.cardVariants
                                 {| cva_variant := Some VariantStatus;
                                    cva_size := Tsx.size p;
                                    cva_status := Some Error;
                                    cva_className := Tsx.className p |});
                      VString (js "animate-in slide-in-from-left-1 duration-200")]))
    /\ (forall (var : option Variant) (st : option Status),
           exists r' σ'',
             Tsx.Card (Tsx.withLook var st p) σ = Ok (r', σ'')
             /\ tree r' = tree r)
    /\ descend [0; 0; 1] (tree r) = Some (Text (js "Invalid Card Configuration"))
    /\ descend [1; 0; 0] (tree r) = Some (Expr (VString (message v))).
Proof.
  intros Hv Hinvalid Hshow.
  rewrite validateCardProps_spec in Hv. injection Hv as Hv.
  assert (Hmode : forall q : Tsx.CardProps,
             Tsx.title q = Tsx.title p -> Tsx.description q = Tsx.description p ->
             Tsx.showValidation q = Tsx.showValidation p ->
             resolveRenderMode (spec_validate (Tsx.title q) (Tsx.description q))
               (default false (Tsx.showValidation q)) = ValidationError).
  { intros q -> -> ->. rewrite Hv, Hshow.
    apply resolveRenderMode_error. split; [exact Hinvalid | reflexivity]. }
  eexists _, _. split; [apply Tsx_Card_eq|]. cbn [tree].
  rewrite (Hmode p), Hv by reflexivity.
  repeat apply conj; try reflexivity.
  - apply Tsx_error_className.
  - intros var st. eexists _, _. split; [apply Tsx_Card_eq|]. cbn [tree].
    rewrite (Hmode (Tsx.withLook var st p)) by reflexivity.
    cbn [Tsx.withLook Tsx.title Tsx.description]. rewrite Hv. reflexivity.
Qed.

Lemma error_view_forces_status_error_witness :
  let p := {| Tsx.className := VUndefined; Tsx.variant := Some Featured;
              Tsx.size := Some Sm; Tsx.status := Some Success;
              Tsx.title := VString (js "");
              Tsx.description := VString (js "Valid description");
              Tsx.showValidation := Some true;
              Tsx.onValidationChange := None;
              Tsx.forwardedRef := None; Tsx.others := ∅ |} in
  let v := {| isValid := false;
              message := js "Card title is required and cannot be empty. Please provide a meaningful title to describe your content." |} in
  @validateCardProps asciiRuntime (Tsx.title p) (Tsx.description p) = Ok v
  /\ exists r σ',
       @Tsx.Card asciiRuntime joinStyle p [] = Ok (r, σ')
       /\ descend [1; 0; 0] (tree r) = Some (Expr (VString (message v))).
Proof.
  intros p v.
  assert (Hv : @validateCardProps asciiRuntime (Tsx.title p) (Tsx.description p) = Ok v)
    by (vm_compute; reflexivity).
  split; [exact Hv|].
  destruct (@error_view_forces_status_error asciiRuntime joinStyle p [] v
              Hv eq_refl eq_refl)
    as (r & σ' & Hcard & _ & _ & _ & _ & Hbody).
  exists r, σ'. split; assumption.
Defined.

Lemma Jsx_overrides_leave_spacing (k : string) :
  k = "padding" \/ k = "gap" ->
  Jsx.variantStyles VariantStatus !! k = None
  /\ Jsx.statusStyles Error !! k = None.
Proof. intros [-> | ->]; split; vm_compute; reflexivity. Qed.

Lemma Jsx_error_style_lookup (q : Jsx.CardProps) (k : string) :
  k = "padding" \/ k = "gap" ->
  Jsx.spread [ Jsx.variantStyles VariantStatus;
               Jsx.sizeStyles (default SizeDefault (Jsx.size q));
               Jsx.statusStyles Error;
               default ∅ (Jsx.style q) ] !! k
  = (default ∅ (Jsx.style q)
     ∪ Jsx.sizeStyles (default SizeDefault (Jsx.size q))) !! k.
Proof.
  intros Hk. destruct (Jsx_overrides_leave_spacing k Hk) as [Hv Hs].
  unfold Jsx.spread. cbn [foldl].
  rewrite !lookup_union, Hv, Hs, lookup_empty.
  destruct (default ∅ (Jsx.style q) !! k),
           (Jsx.sizeStyles (default SizeDefault (Jsx.size q)) !! k); reflexivity.
Qed.

Lemma Jsx_rest_destructured (q : Jsx.CardProps) (k : string) :
  k ∈ Jsx.destructured -> Jsx.restProps q !! k = None.
Proof. apply lookup_foldr_delete. Qed.

(** C10.  In the error view only the variant and the status handed to the
    style lookup are replaced.  In Card.tsx the lookup receives the
    caller's [size] and [className] as they are: its argument is the one
    the normal view would pass for the same props with variant "status"
    and status "error".  In the demo's Card the class list still ends with
    the caller's [className], and the padding and gap of the style are
    those of the caller's size (unless the caller's own [style] sets
    them).  Neither error view depends on the requested variant and
    status. *)
Theorem error_view_keeps_size_and_className `{StringRuntime} `{StyleSystem} :
  (forall (p : Tsx.CardProps) (v : CardValidation),
      let lookedUp :=
        Tsx.cardVariants {| cva_variant := Some VariantStatus;
                            cva_size := Tsx.size p;
                            cva_status := Some Error;
                            cva_className := Tsx.className p |} in
      attrsOf (Tsx.errorView p v) !! "className"
      = Some (AString
                (cn [VString lookedUp;
                     VString (js "animate-in slide-in-from-left-1 duration-200")]))
      /\ attrsOf (Tsx.normalView (Tsx.withLook (Some VariantStatus) (Some Error) p))
           !! "className"
         = Some (AString (cn [VString lookedUp])))
  /\ (forall (p : Tsx.CardProps) (v : CardValidation)
             (var : option Variant) (st : option Status),
         Tsx.errorView (Tsx.withLook var st p) v = Tsx.errorView p v)
  /\ (forall (q : Jsx.CardProps) (v : CardValidation),
         attrsOf (Jsx.errorView q v) !! "className"
         = Some (AString (Jsx.cn [VString (js "card card-error");
                                  Jsx.classNameOr (Jsx.className q)]))
         /\ exists st,
              attrsOf (Jsx.errorView q v) !! "style" = Some (AStyle st)
              /\ st !! "padding"
                 = (default ∅ (Jsx.style q)
                    ∪ Jsx.sizeStyles (default SizeDefault (Jsx.size q))) !! "padding"
              /\ st !! "gap"
                 = (default ∅ (Jsx.style q)
                    ∪ Jsx.sizeStyles (default SizeDefault (Jsx.size q))) !! "gap")
  /\ (forall (q : Jsx.CardProps) (v : CardValidation)
             (var : option Variant) (st : option Status),
         Jsx.errorView (Jsx.withLook var st q) v = Jsx.errorView q v).
Proof.
  repeat apply conj; try reflexivity.
  - intros p v lookedUp. split.
    + apply Tsx_error_className.
    + rewrite Tsx_normal_className. reflexivity.
  - intros q v. split.
    + unfold Jsx.errorView, attrsOf.
      rewrite lookup_union_r by (apply Jsx_rest_destructured; set_solver).
      apply lookup_insert_eq.
    + eexists. split.
      * unfold Jsx.errorView, attrsOf.
        rewrite lookup_union_r by (apply Jsx_rest_destructured; set_solver).
        rewrite lookup_insert_ne by discriminate.
        apply lookup_insert_eq.
      * split; apply Jsx_error_style_lookup; auto.
Qed.

(** The error view of a small compact card, with the stand-in style
    helpers: the spacing classes are those of the small size, the border
    those of the "error" status. *)
Example error_view_small_card :
  let p := {| Tsx.className := VString (js "mine"); Tsx.variant := Some Compact;
              Tsx.size := Some Sm; Tsx.status := Some Success;
              Tsx.title := VUndefined; Tsx.description := VUndefined;
              Tsx.showValidation := Some true;
              Tsx.onValidationChange := None;
              Tsx.forwardedRef := None; Tsx.others := ∅ |} in
  match @Tsx.Card asciiRuntime joinStyle p [] with
  | Ok (r, _) =>
      match attrsOf (tree r) !! "className" with
      | Some (AString c) =>
          includes (js "p-4 space-y-2") c && includes (js "border-l-red-500") c
          && includes (js " mine ") c && negb (includes (js "p-3") c)
      | _ => false
      end
  | Throw => false
  end = true.
Proof. vm_compute. reflexivity. Qed.

(** * The effect: when observers are called *)

Section Notification.
Context `{StringRuntime} `{StyleSystem}.

(** The verdict object of a render is new, so the dependency array never
    equals the previous one. *)
Lemma deps_always_change (f : Fiber) (cb : option Observer) :
  fiber_ok f ->
  depsChanged (lastDeps f) [DepObject (length (store f)); DepCallback cb] = true.
Proof.
  unfold fiber_ok, depsChanged. destruct (lastDeps f) as [deps|]; [|reflexivity].
  intros (r & cb' & -> & Hr). apply negb_true_iff, bool_decide_eq_false.
  intros Heq. injection Heq as Heq _. lia.
Qed.

Lemma renderPass_Card (p : Tsx.CardProps) (f : Fiber) :
  fiber_ok f ->
  exists r σ' f',
    Tsx.Card p (store f) = Ok (r, σ')
    /\ renderPass Tsx.Card p f
       = Ok (passEvents (tree r) (Tsx.onValidationChange p)
               (spec_validate (Tsx.title p) (Tsx.description p)), f')
    /\ fiber_ok f'.
Proof.
  intros Hf. eexists _, _, _. split; [apply Tsx_Card_eq|].
  unfold renderPass. rewrite Tsx_Card_eq.
  cbn [mbind result_bind mret result_ret effect effect_deps effect_body tree].
  rewrite deps_always_change by exact Hf. split; [reflexivity|].
  unfold fiber_ok. cbn [lastDeps store].
  eexists _, _. split; [reflexivity|]. rewrite length_app. simpl. lia.
Qed.

(** Every sequence of renders runs to the end and leaves a well-formed
    instance. *)
Lemma lifetime_Card (ps : list Tsx.CardProps) (f : Fiber) :
  fiber_ok f ->
  exists es f', lifetime Tsx.Card ps f = Ok (es, f') /\ fiber_ok f'.
Proof.
  revert f. induction ps as [|p ps IH]; intros f Hf.
  - exists [], f. split; [reflexivity | exact Hf].
  - destruct (renderPass_Card p f Hf) as (r & σ' & f' & _ & Hpass & Hf').
    destruct (IH f' Hf') as (es & f'' & Hrest & Hf'').
    eexists _, f''. split; [|exact Hf''].
    cbn [lifetime]. rewrite Hpass. cbn [mbind result_bind].
    rewrite Hrest. reflexivity.
Qed.

End Notification.

(** C7.  The verdict of a render is a function of the title and the
    description alone: two renders with the same title and description
    allocate verdict objects of equal value (the value [validateCardProps]
    returns for them) whatever the variant, size, status and other props,
    and whatever the store holds of earlier verdicts; calling the
    validator twice on the same arguments gives equal results. *)
Theorem verdict_depends_on_title_and_description_only
    `{StringRuntime} `{StyleSystem}
    (p1 p2 : Tsx.CardProps) (q : Jsx.CardProps) (σ1 σ2 σ3 : Store) :
  Tsx.title p1 = Tsx.title p2 -> Tsx.description p1 = Tsx.description p2 ->
  Tsx.title p1 = Jsx.title q -> Tsx.description p1 = Jsx.description q ->
  exists v r1 r2 r3,
    validateCardProps (Tsx.title p1) (Tsx.description p1) = Ok v
    /\ Tsx.Card p1 σ1 = Ok (r1, σ1 ++ [v])
    /\ Tsx.Card p2 σ2 = Ok (r2, σ2 ++ [v])
    /\ Jsx.Card q σ3 = Ok (r3, σ3 ++ [v])
    /\ (σ1 ++ [v]) !! length σ1 = Some v
    /\ (σ2 ++ [v]) !! length σ2 = Some v
    /\ validateCardProps (Tsx.title p2) (Tsx.description p2)
       = validateCardProps (Tsx.title p1) (Tsx.description p1).
Proof.
  intros Ht Hd Ht' Hd'.
  exists (spec_validate (Tsx.title p1) (Tsx.description p1)).
  eexists _, _, _. repeat apply conj.
  - apply validateCardProps_spec.
  - apply Tsx_Card_eq.
  - rewrite Ht, Hd. apply Tsx_Card_eq.
  - rewrite Ht', Hd'. apply Jsx_Card_eq.
  - apply list_lookup_middle. reflexivity.
  - apply list_lookup_middle. reflexivity.
  - rewrite Ht, Hd. reflexivity.
Qed.

Lemma verdict_depends_on_title_and_description_only_witness :
  let p1 := Tsx.observed (js "Valid title") (js "Valid description") 1 in
  let p2 := Tsx.withLook (Some VariantStatus) (Some Warning) p1 in
  let q := {| Jsx.className := VUndefined; Jsx.variant := Some Featured;
              Jsx.size := Some Lg; Jsx.status := None;
              Jsx.title := VString (js "Valid title");
              Jsx.description := VString (js "Valid description");
              Jsx.showValidation := Some true;
              Jsx.onValidationChange := None;
              Jsx.style := None; Jsx.children := None;
              Jsx.forwardedRef := None; Jsx.others := ∅ |} in
  let earlier := {| isValid := false; message := js "an earlier verdict" |} in
  exists v r1 r2 r3,
    @Tsx.Card asciiRuntime joinStyle p1 [] = Ok (r1, [v])
    /\ @Tsx.Card asciiRuntime joinStyle p2 [earlier] = Ok (r2, [earlier; v])
    /\ @Jsx.Card asciiRuntime q [earlier; earlier] = Ok (r3, [earlier; earlier; v]).
Proof.
  intros p1 p2 q earlier.
  destruct (@verdict_depends_on_title_and_description_only asciiRuntime joinStyle
              p1 p2 q [] [earlier] [earlier; earlier]
              eq_refl eq_refl eq_refl eq_refl)
    as (v & r1 & r2 & r3 & _ & H1 & H2 & H3 & _).
  exists v, r1, r2, r3. repeat split; assumption.
Defined.

(** C8.  When the verdict of a render differs in value from the verdict of
    the instance's previous render and an observer is registered, the
    render calls the observer exactly once, with the new verdict, after
    the tree of that render has been committed; whatever happened to the
    instance before.  A render without an observer calls nothing.
    Mounting a card with title "Valid title", description
    "Valid description" and an observer calls it exactly once, with the
    valid verdict and its success message. *)
Theorem changed_verdict_is_emitted_once `{StringRuntime} `{StyleSystem} :
  (forall (history : list Tsx.CardProps) (prev p : Tsx.CardProps)
          (observer : Observer) (vprev v : CardValidation),
      validateCardProps (Tsx.title prev) (Tsx.description prev) = Ok vprev ->
      validateCardProps (Tsx.title p) (Tsx.description p) = Ok v ->
      vprev <> v ->
      Tsx.onValidationChange p = Some observer ->
      exists es f r σ' f',
        lifetime Tsx.Card (history ++ [prev]) unmounted = Ok (es, f)
        /\ Tsx.Card p (store f) = Ok (r, σ')
        /\ renderPass Tsx.Card p f
           = Ok ([Committed (tree r); Called observer v], f'))
  /\ (forall (history : list Tsx.CardProps) (p : Tsx.CardProps),
      Tsx.onValidationChange p = None ->
      exists es f r σ' f',
        lifetime Tsx.Card history unmounted = Ok (es, f)
        /\ Tsx.Card p (store f) = Ok (r, σ')
        /\ renderPass Tsx.Card p f = Ok ([Committed (tree r)], f'))
  /\ (forall observer : Observer,
      exists t f,
        lifetime Tsx.Card
          [Tsx.observed (js "Valid title") (js "Valid description") observer]
          unmounted
        = Ok ([Committed t;
               Called observer
                 {| isValid := true;
                    message := js "Card content is valid and provides meaningful information to users." |}],
              f)).
Proof.
  assert (Hmounted : fiber_ok unmounted) by exact I.
  repeat apply conj.
  - intros history prev p observer vprev v _ Hv _ Hobs.
    rewrite validateCardProps_spec in Hv. injection Hv as Hv.
    destruct (lifetime_Card (history ++ [prev]) unmounted Hmounted)
      as (es & f & Hlife & Hf).
    destruct (renderPass_Card p f Hf) as (r & σ' & f' & Hcard & Hpass & _).
    exists es, f, r, σ', f'. repeat split; try assumption.
    rewrite Hpass, Hobs, Hv. reflexivity.
  - intros history p Hobs.
    destruct (lifetime_Card history unmounted Hmounted) as (es & f & Hlife & Hf).
    destruct (renderPass_Card p f Hf) as (r & σ' & f' & Hcard & Hpass & _).
    exists es, f, r, σ', f'. repeat split; try assumption.
    rewrite Hpass, Hobs. reflexivity.
  - intros observer.
    set (p := Tsx.observed (js "Valid title") (js "Valid description") observer).
    destruct (renderPass_Card p unmounted Hmounted)
      as (r & σ' & f' & _ & Hpass & _).
    exists (tree r), f'. cbn [lifetime]. rewrite Hpass.
    cbn [mbind result_bind mret result_ret]. rewrite app_nil_r.
    unfold passEvents, p.
    cbn [Tsx.observed Tsx.onValidationChange Tsx.title Tsx.description
         observerCalls].
    rewrite spec_validate_ascii by reflexivity. reflexivity.
Qed.

Lemma changed_verdict_is_emitted_once_witness :
  let prev := Tsx.observed (js "") (js "Valid description") 1 in
  let p := Tsx.observed (js "Valid title") (js "Valid description") 1 in
  let vprev := {| isValid := false;
                  message := js "Card title is required and cannot be empty. Please provide a meaningful title to describe your content." |} in
  let v := {| isValid := true;
              message := js "Card content is valid and provides meaningful information to users." |} in
  vprev <> v
  /\ exists es f r σ' f',
       lifetime (@Tsx.Card asciiRuntime joinStyle) ([] ++ [prev]) unmounted
       = Ok (es, f)
       /\ @Tsx.Card asciiRuntime joinStyle p (store f) = Ok (r, σ')
       /\ renderPass (@Tsx.Card asciiRuntime joinStyle) p f
          = Ok ([Committed (tree r); Called 1 v], f').
Proof.
  intros prev p vprev v.
  assert (Hne : vprev <> v) by discriminate.
  split; [exact Hne|].
  refine (proj1 (@changed_verdict_is_emitted_once asciiRuntime joinStyle)
            [] prev p 1 vprev v _ _ Hne eq_refl);
    vm_compute; reflexivity.
Defined.

(** Two renders with the same props: the verdict has not changed in value,
    and the observer is called after both commits all the same, the
    verdict object of the second render being a new one. *)
Example unchanged_verdict_is_emitted_again :
  let p := Tsx.observed (js "Valid title") (js "Valid description") 1 in
  let v := {| isValid := true;
              message := js "Card content is valid and provides meaningful information to users." |} in
  match lifetime (@Tsx.Card asciiRuntime joinStyle) [p; p] unmounted with
  | Ok (es, f) =>
      bool_decide (calls es = [(1, v); (1, v)] /\ store f = [v; v])
  | Throw => false
  end = true.
Proof. vm_compute. reflexivity. Qed.

(** * More about the validator *)

Lemma trimStart_app_blank (p x : jsstring) :
  forallb isWhiteSpace p = true -> trimStart (p ++ x) = trimStart x.
Proof.
  induction p as [|c p IH]; simpl; [reflexivity|].
  intros Hp. apply andb_true_iff in Hp as [Hc Hp]. rewrite Hc. exact (IH Hp).
Qed.

Lemma trimStart_app_keep (s q : jsstring) :
  trimStart s <> [] -> trimStart (s ++ q) = trimStart s ++ q.
Proof.
  induction s as [|c s IH]; simpl; [congruence|].
  destruct (isWhiteSpace c); [exact IH | reflexivity].
Qed.

Lemma trimEnd_app_blank (x q : jsstring) :
  forallb isWhiteSpace q = true -> trimEnd (x ++ q) = trimEnd x.
Proof.
  intros Hq. unfold trimEnd. rewrite rev_app_distr.
  rewrite trimStart_app_blank by (apply rev_forallb, Hq). reflexivity.
Qed.

(** Whitespace around a text is invisible to [trim]. *)
Lemma trim_padding (p s q : jsstring) :
  forallb isWhiteSpace p = true -> forallb isWhiteSpace q = true ->
  trim (p ++ s ++ q) = trim s.
Proof.
  intros Hp Hq. unfold trim. rewrite trimStart_app_blank by exact Hp.
  destruct (trimStart s) as [|c u] eqn:Hs.
  - apply trimStart_nil_iff in Hs.
    rewrite trimStart_app_blank by exact Hs.
    apply trimStart_nil_iff in Hq. rewrite Hq. reflexivity.
  - rewrite trimStart_app_keep by (rewrite Hs; discriminate).
    rewrite Hs. apply trimEnd_app_blank, Hq.
Qed.

(** X1.  Whitespace added before or after the title and the description
    does not change the verdict, as long as the padded title stays within
    100 code units and the padded description within 500. *)
Theorem padding_within_limits_keeps_verdict `{StringRuntime}
    (p q p' q' s d : jsstring) :
  forallb isWhiteSpace p = true -> forallb isWhiteSpace q = true ->
  forallb isWhiteSpace p' = true -> forallb isWhiteSpace q' = true ->
  length (p ++ s ++ q) <= 100 -> length (p' ++ d ++ q') <= 500 ->
  validateCardProps (VString (p ++ s ++ q)) (VString (p' ++ d ++ q'))
  = validateCardProps (VString s) (VString d).
Proof.
  intros Hp Hq Hp' Hq' Hs Hd. rewrite !validateCardProps_spec. f_equal.
  rewrite !length_app in Hs, Hd.
  unfold spec_validate, classify, absentOrBlank, rawLength, trimmedLower.
  rewrite !trim_padding by assumption.
  assert (H1 : (100 <? length (p ++ s ++ q)) = false)
    by (apply Nat.ltb_ge; rewrite !length_app; lia).
  assert (H2 : (100 <? length s) = false) by (apply Nat.ltb_ge; lia).
  assert (H3 : (500 <? length (p' ++ d ++ q')) = false)
    by (apply Nat.ltb_ge; rewrite !length_app; lia).
  assert (H4 : (500 <? length d) = false) by (apply Nat.ltb_ge; lia).
  rewrite H1, H2, H3, H4.
  destruct (bool_decide (trim s = [])); [reflexivity|].
  destruct (bool_decide (trim d = [])); [reflexivity|].
  destruct (bool_decide (toLowerCase (trim s) = toLowerCase (trim d)));
    reflexivity.
Qed.

Lemma padding_within_limits_keeps_verdict_witness :
  @validateCardProps asciiRuntime
    (VString (js "  " ++ js "Valid Title" ++ js "  "))
    (VString (js "  " ++ js "valid title" ++ js " "))
  = @validateCardProps asciiRuntime (VString (js "Valid Title"))
      (VString (js "valid title")).
Proof.
  apply (@padding_within_limits_keeps_verdict asciiRuntime);
    vm_compute; first [reflexivity | lia].
Defined.

(** X2.  What a valid verdict guarantees: both fields are strings that are
    not blank, the title has between 1 and 100 code units and the
    description between 1 and 500, and the two texts differ, even after
    trimming and lower-casing. *)
Theorem valid_verdict_guarantees `{StringRuntime}
    (title description : value) (v : CardValidation) :
  validateCardProps title description = Ok v ->
  isValid v = true ->
  exists s d,
    title = VString s /\ description = VString d
    /\ trim s <> [] /\ trim d <> []
    /\ 1 <= length s <= 100 /\ 1 <= length d <= 500
    /\ toLowerCase (trim s) <> toLowerCase (trim d)
    /\ s <> d.
Proof.
  intros Hv Hvalid. rewrite validateCardProps_spec in Hv. injection Hv as <-.
  unfold spec_validate, verdictOfKind in Hvalid. cbn [isValid] in Hvalid.
  apply bool_decide_eq_true in Hvalid.
  pose proof (classify_rule title description) as Hr. rewrite Hvalid in Hr.
  destruct Hr as (Ht & Hlt & Hd & Hld & Hne).
  destruct (not_blank_string _ Ht) as (s & -> & Hs).
  destruct (not_blank_string _ Hd) as (d & -> & Hd').
  exists s, d. cbn [rawLength trimmedLower] in *.
  assert (Hpos : forall x : jsstring, trim x <> [] -> 1 <= length x).
  { intros [|c x] Hx; [exfalso; apply Hx; reflexivity | simpl; lia]. }
  pose proof (Hpos _ Hs). pose proof (Hpos _ Hd').
  repeat split; try assumption; try lia.
  intros ->. apply Hne. reflexivity.
Qed.

Lemma valid_verdict_guarantees_witness :
  exists s d,
    VString (js "Valid title") = VString s
    /\ VString (js "Valid description") = VString d
    /\ trim s <> [] /\ trim d <> []
    /\ 1 <= length s <= 100 /\ 1 <= length d <= 500
    /\ @toLowerCase asciiRuntime (trim s) <> @toLowerCase asciiRuntime (trim d)
    /\ s <> d.
Proof.
  apply (@valid_verdict_guarantees asciiRuntime _ _
           {| isValid := true;
              message := js "Card content is valid and provides meaningful information to users." |});
    vm_compute; reflexivity.
Defined.

(** X3.  A description that repeats the title is never valid: whenever
    the two texts agree after trimming and lower-casing, whatever their
    lengths, the verdict is invalid; so is the verdict of any value used
    for both fields. *)
Theorem repeated_text_is_never_valid `{StringRuntime} :
  (forall s d : jsstring,
      toLowerCase (trim s) = toLowerCase (trim d) ->
      exists v, validateCardProps (VString s) (VString d) = Ok v
                /\ isValid v = false)
  /\ (forall x : value,
      exists v, validateCardProps x x = Ok v /\ isValid v = false).
Proof.
  assert (Hgen : forall t d : value,
             trimmedLower t = trimmedLower d ->
             isValid (spec_validate t d) = false).
  { intros t d Heq. unfold spec_validate, verdictOfKind. cbn [isValid].
    apply bool_decide_eq_false. intros Hk.
    pose proof (classify_rule t d) as Hr. rewrite Hk in Hr.
    simpl in Hr. tauto. }
  split.
  - intros s d Heq. eexists. split; [apply validateCardProps_spec|].
    apply Hgen. exact Heq.
  - intros x. eexists. split; [apply validateCardProps_spec|].
    apply Hgen. reflexivity.
Qed.

Lemma repeated_text_is_never_valid_witness :
  exists v, @validateCardProps asciiRuntime (VString (js "Release Notes "))
              (VString (js " release notes")) = Ok v
            /\ isValid v = false.
Proof.
  apply (proj1 (@repeated_text_is_never_valid asciiRuntime)).
  vm_compute. reflexivity.
Defined.

(** X4.  For two fields of at most 100 code units each (absent ones
    included) validity does not depend on which is the title and which
    the description. *)
Theorem validity_is_symmetric_for_short_fields `{StringRuntime}
    (x y : value) :
  rawLength x <= 100 -> rawLength y <= 100 ->
  exists v v',
    validateCardProps x y = Ok v /\ validateCardProps y x = Ok v'
    /\ isValid v = isValid v'.
Proof.
  intros Hx Hy. eexists _, _.
  split; [apply validateCardProps_spec|]. split; [apply validateCardProps_spec|].
  unfold spec_validate, verdictOfKind. cbn [isValid]. unfold classify.
  assert (Hx1 : (100 <? rawLength x) = false) by (apply Nat.ltb_ge; lia).
  assert (Hx5 : (500 <? rawLength x) = false) by (apply Nat.ltb_ge; lia).
  assert (Hy1 : (100 <? rawLength y) = false) by (apply Nat.ltb_ge; lia).
  assert (Hy5 : (500 <? rawLength y) = false) by (apply Nat.ltb_ge; lia).
  rewrite Hx1, Hx5, Hy1, Hy5.
  destruct (absentOrBlank x), (absentOrBlank y); try reflexivity.
  destruct (bool_decide_reflect (trimmedLower x = trimmedLower y)),
           (bool_decide_reflect (trimmedLower y = trimmedLower x));
    try reflexivity; congruence.
Qed.

Lemma validity_is_symmetric_for_short_fields_witness :
  exists v v',
    @validateCardProps asciiRuntime (VString (js "Title")) VUndefined = Ok v
    /\ @validateCardProps asciiRuntime VUndefined (VString (js "Title")) = Ok v'
    /\ isValid v = isValid v'.
Proof.
  apply (@validity_is_symmetric_for_short_fields asciiRuntime);
    vm_compute; lia.
Defined.

(** The digits of a number end where the first "/" stands. *)
Lemma digits_delimited (u u' : Decimal.uint) (r r' : jsstring) :
  digits u ++ 47%N :: r = digits u' ++ 47%N :: r' -> u = u'.
Proof.
  revert u'. induction u as [|u IH|u IH|u IH|u IH|u IH|u IH|u IH|u IH|u IH|u IH];
    intros [|u'|u'|u'|u'|u'|u'|u'|u'|u'|u']; simpl; intros Heq;
    try discriminate Heq; try reflexivity;
    injection Heq as Heq; f_equal; exact (IH _ Heq).
Qed.

Lemma numberToString_delimited (n n' : nat) (r r' : jsstring) :
  numberToString n ++ 47%N :: r = numberToString n' ++ 47%N :: r' -> n = n'.
Proof.
  intros Heq. apply DecimalNat.Unsigned.to_uint_inj.
  exact (digits_delimited _ _ _ _ Heq).
Qed.

(** X5.  A too-long message determines the length it reports: two inputs
    that get the same title-too-long verdict have titles of the same raw
    length, and two inputs that get the same description-too-long verdict
    have descriptions of the same raw length. *)
Theorem too_long_message_determines_length `{StringRuntime}
    (t d t' d' : value) (v : CardValidation) :
  validateCardProps t d = Ok v ->
  validateCardProps t' d' = Ok v ->
  (recoverKind (message v) = Some TitleTooLong -> rawLength t = rawLength t')
  /\ (recoverKind (message v) = Some DescriptionTooLong ->
      rawLength d = rawLength d').
Proof.
  intros Hv Hv'. rewrite validateCardProps_spec in Hv, Hv'.
  injection Hv as <-. unfold spec_validate, verdictOfKind in *.
  cbn [message] in *. injection Hv' as _ Hm.
  pose proof (canonicalMessage_kind _ _ _ _ _ _ Hm) as Hk.
  rewrite Hk in Hm. rewrite recoverKind_canonical.
  split; intros Hkind; injection Hkind as Hkind; rewrite Hkind in Hm;
    cbn [canonicalMessage] in Hm; apply app_inv_head in Hm;
    symmetry; exact (numberToString_delimited _ _ _ _ Hm).
Qed.

Lemma too_long_message_determines_length_witness :
  rawLength (VString (repeatUnit 97 120)) = rawLength (VString (repeatUnit 98 120)).
Proof.
  refine (proj1 (@too_long_message_determines_length asciiRuntime
                   (VString (repeatUnit 97 120)) VUndefined
                   (VString (repeatUnit 98 120)) (VString (js "other"))
                   {| isValid := false;
                      message := js "Card title is too long (120/100 characters). Please use a concise title that summarizes your content effectively." |}
                   _ _) _);
    vm_compute; reflexivity.
Defined.

(** * More about the effect *)

Section EveryRender.
Context {P : Type} (C : Component P).
Context (view : P -> Node) (observer : P -> option Observer)
        (verdict : P -> CardValidation).
Hypothesis C_eq : forall (p : P) (σ : Store),
  C p σ = Ok ({| tree := view p;
                 effect := {| effect_body := observerCalls (observer p) (verdict p);
                              effect_deps := [DepObject (length σ);
                                              DepCallback (observer p)] |} |},
              σ ++ [verdict p]).

(** A component that puts its new verdict object among the dependencies
    of its effect runs the effect after every commit. *)
Lemma lifetime_trace (ps : list P) (f : Fiber) :
  fiber_ok f ->
  exists f',
    lifetime C ps f
    = Ok (concat (map (fun p => passEvents (view p) (observer p) (verdict p)) ps), f')
    /\ store f' = store f ++ map verdict ps
    /\ fiber_ok f'.
Proof.
  revert f. induction ps as [|p ps IH]; intros f Hf.
  - exists f. cbn [lifetime map concat]. rewrite app_nil_r.
    repeat split. exact Hf.
  - set (f1 := {| store := store f ++ [verdict p];
                  lastDeps := Some [DepObject (length (store f));
                                    DepCallback (observer p)] |}).
    assert (Hf1 : fiber_ok f1).
    { unfold fiber_ok, f1. cbn [lastDeps store]. eexists _, _.
      split; [reflexivity|]. rewrite length_app. simpl. lia. }
    destruct (IH f1 Hf1) as (f' & Hrest & Hstore & Hf').
    exists f'. split; [|split; [|exact Hf']].
    + cbn [lifetime]. unfold renderPass. rewrite C_eq.
      cbn [mbind result_bind mret result_ret effect effect_deps effect_body tree].
      assert (Hfire : depsChanged (lastDeps f)
                        [DepObject (length (store f)); DepCallback (observer p)]
                      = true).
      { unfold fiber_ok in Hf. unfold depsChanged.
        destruct (lastDeps f) as [deps|]; [|reflexivity].
        destruct Hf as (r & cb & -> & Hr).
        apply negb_true_iff, bool_decide_eq_false.
        intros Heq. injection Heq as Heq _. lia. }
      rewrite Hfire. fold f1. rewrite Hrest. reflexivity.
    + rewrite Hstore. unfold f1. cbn [store map].
      rewrite <- app_assoc. reflexivity.
Qed.

End EveryRender.

Lemma calls_passEvents (t : Node) (o : option Observer) (v : CardValidation) :
  calls (passEvents t o v) = option_list ((fun f => (f, v)) <$> o).
Proof. destruct o; reflexivity. Qed.

Lemma calls_concat (ess : list (list Event)) :
  calls (concat ess) = concat (map calls ess).
Proof.
  unfold calls. induction ess as [|es ess IH]; [reflexivity|].
  cbn [concat map]. rewrite omap_app, IH. reflexivity.
Qed.

Lemma calls_trace {P} (view : P -> Node) (observer : P -> option Observer)
    (verdict : P -> CardValidation) (ps : list P) :
  calls (concat (map (fun p => passEvents (view p) (observer p) (verdict p)) ps))
  = omap (fun pv => (fun o => (o, pv.2)) <$> observer pv.1)
         (zip ps (map verdict ps)).
Proof.
  rewrite calls_concat.
  induction ps as [|p ps IH]; [reflexivity|].
  cbn [map concat zip zip_with omap list_omap]. rewrite IH, calls_passEvents.
  cbn [fst snd]. destruct (observer p); reflexivity.
Qed.

(** X6.  Every render of a card calls its observer, whether or not the
    props or the verdict changed: over any sequence of renders of one
    instance, of either component, each render allocates one verdict
    object (the value [validateCardProps] returns for its title and
    description), and the observer calls are, in order, one per render
    that has an observer, each with the verdict of that render. *)
Theorem every_render_calls_the_observer `{StringRuntime} `{StyleSystem} :
  (forall ps : list Tsx.CardProps,
      exists es f,
        lifetime Tsx.Card ps unmounted = Ok (es, f)
        /\ Forall2 (fun p v => validateCardProps (Tsx.title p) (Tsx.description p) = Ok v)
             ps (store f)
        /\ calls es
           = omap (fun pv => (fun o => (o, pv.2)) <$> Tsx.onValidationChange pv.1)
                  (zip ps (store f)))
  /\ (forall qs : list Jsx.CardProps,
      exists es f,
        lifetime Jsx.Card qs unmounted = Ok (es, f)
        /\ Forall2 (fun q v => validateCardProps (Jsx.title q) (Jsx.description q) = Ok v)
             qs (store f)
        /\ calls es
           = omap (fun qv => (fun o => (o, qv.2)) <$> Jsx.onValidationChange qv.1)
                  (zip qs (store f))).
Proof.
  assert (Hmounted : fiber_ok unmounted) by exact I.
  split.
  - intros ps.
    destruct (lifetime_trace Tsx.Card _ _ _ (fun p σ => Tsx_Card_eq p σ)
                ps unmounted Hmounted) as (f & Hlife & Hstore & _).
    eexists _, f. split; [exact Hlife|]. rewrite Hstore. cbn [unmounted store app].
    split; [|apply calls_trace].
    apply Forall2_fmap_r, Forall_Forall2_diag, Forall_forall.
    intros p _. apply validateCardProps_spec.
  - intros qs.
    destruct (lifetime_trace Jsx.Card _ _ _ (fun q σ => Jsx_Card_eq q σ)
                qs unmounted Hmounted) as (f & Hlife & Hstore & _).
    eexists _, f. split; [exact Hlife|]. rewrite Hstore. cbn [unmounted store app].
    split; [|apply calls_trace].
    apply Forall2_fmap_r, Forall_Forall2_diag, Forall_forall.
    intros q _. apply validateCardProps_spec.
Qed.

(** * More about the demo's Card *)

Lemma spread_snoc {V} (objs : list (gmap string V)) (o : gmap string V) :
  Jsx.spread (objs ++ [o]) = o ∪ Jsx.spread objs.
Proof. unfold Jsx.spread. rewrite foldl_app. reflexivity. Qed.

Lemma spread_cons_lookup {V} (o : gmap string V) (objs : list (gmap string V))
    (k : string) :
  Jsx.spread (o :: objs) !! k = Jsx.spread objs !! k ∪ o !! k.
Proof.
  revert o. induction objs as [|o' objs IH] using rev_ind; intros o.
  - unfold Jsx.spread. cbn [foldl].
    rewrite lookup_union, !lookup_empty. destruct (o !! k); reflexivity.
  - rewrite app_comm_cons, !spread_snoc, !lookup_union, IH.
    destruct (o' !! k), (Jsx.spread objs !! k), (o !! k); reflexivity.
Qed.

Lemma Jsx_Card_style `{StringRuntime} (q : Jsx.CardProps) (σ : Store) :
  exists r σ',
    Jsx.Card q σ = Ok (r, σ')
    /\ attrsOf (tree r) !! "style"
       = Some (AStyle
                 (Jsx.spread
                    (styleLayers q
                       (resolveRenderMode
                          (spec_validate (Jsx.title q) (Jsx.description q))
                          (default false (Jsx.showValidation q)))
                     ++ [default ∅ (Jsx.style q)]))).
Proof.
  eexists _, _. split; [apply Jsx_Card_eq|]. cbn [tree].
  assert (Hrest : Jsx.restProps q !! "style" = None)
    by (apply Jsx_rest_destructured; apply (bool_decide_unpack _); vm_compute; exact I).
  unfold styleLayers.
  destruct (resolveRenderMode _ _); [destruct (Jsx.children q)|];
    cbn [app];
    unfold Jsx.customView, Jsx.normalView, Jsx.errorView, attrsOf;
    rewrite lookup_union_r by exact Hrest;
    rewrite lookup_insert_ne by discriminate;
    apply lookup_insert_eq.
Qed.

Lemma size_sets_spacing (sz : Size) (k : string) :
  k = "padding" \/ k = "gap" ->
  exists c, Jsx.sizeStyles sz !! k = Some c
            /\ Some c <> Jsx.variantStyles Compact !! k.
Proof.
  intros [-> | ->]; destruct sz; eexists; (split; [vm_compute; reflexivity|]);
    vm_compute; discriminate.
Qed.

Lemma upper_layers_leave_spacing (q : Jsx.CardProps) (k : string) :
  k = "padding" \/ k = "gap" ->
  Jsx.statusStyles Error !! k = None
  /\ Jsx.statusPart q !! k = None
  /\ ({[ "display" := CssValue "flex"; "flexDirection" := CssValue "column" ]}
        : gmap string css) !! k = None.
Proof.
  intros Hk. unfold Jsx.statusPart.
  destruct (bool_decide _), (default StatusNone (Jsx.status q));
    destruct Hk as [-> | ->]; repeat split; vm_compute; reflexivity.
Qed.

(** X7.  In the demo's Card the padding and the gap of the rendered style
    are decided by the size alone, in every view and for every variant:
    they are the caller's own [style] entry if there is one, and otherwise
    the entry of the size table.  The padding of the "compact" variant is
    always overwritten and never reaches the element. *)
Theorem demo_card_spacing_comes_from_size `{StringRuntime}
    (q : Jsx.CardProps) (σ : Store) (k : string) :
  k = "padding" \/ k = "gap" ->
  exists r σ' st,
    Jsx.Card q σ = Ok (r, σ')
    /\ attrsOf (tree r) !! "style" = Some (AStyle st)
    /\ st !! k
       = (default ∅ (Jsx.style q)
          ∪ Jsx.sizeStyles (default SizeDefault (Jsx.size q))) !! k
    /\ (default ∅ (Jsx.style q) !! k = None ->
        st !! k = Jsx.sizeStyles (default SizeDefault (Jsx.size q)) !! k
        /\ st !! k <> Jsx.variantStyles Compact !! k).
Proof.
  intros Hk. destruct (Jsx_Card_style q σ) as (r & σ' & Hcard & Hstyle).
  eexists r, σ', _. split; [exact Hcard|]. split; [exact Hstyle|].
  destruct (size_sets_spacing (default SizeDefault (Jsx.size q)) k Hk)
    as (c & Hsize & Hcompact).
  destruct (upper_layers_leave_spacing q k Hk) as (Herr & Hstatus & Hflex).
  assert (Hlayers : forall mode,
             Jsx.spread (styleLayers q mode) !! k = Some c).
  { intros [|]; unfold styleLayers; [destruct (Jsx.children q)|]; cbn [app];
      rewrite !spread_cons_lookup, Hsize, ?Herr, ?Hstatus, ?Hflex;
      unfold Jsx.spread; cbn [foldl]; rewrite lookup_empty;
      match goal with
      | |- context [Jsx.variantStyles ?v !! k] =>
          destruct (Jsx.variantStyles v !! k)
      end; reflexivity. }
  rewrite spread_snoc, !lookup_union, Hlayers, Hsize.
  split; [reflexivity|].
  intros ->. split; [reflexivity|]. exact Hcompact.
Qed.

Lemma demo_card_spacing_comes_from_size_witness :
  let q := {| Jsx.className := VUndefined; Jsx.variant := Some Compact;
              Jsx.size := None; Jsx.status := None;
              Jsx.title := VString (js "Quick Note");
              Jsx.description := VString (js "Compact card variant for displaying brief information.");
              Jsx.showValidation := None; Jsx.onValidationChange := None;
              Jsx.style := None; Jsx.children := None;
              Jsx.forwardedRef := None; Jsx.others := ∅ |} in
  exists r σ' st,
    @Jsx.Card asciiRuntime q [] = Ok (r, σ')
    /\ attrsOf (tree r) !! "style" = Some (AStyle st)
    /\ st !! "padding" = Some (CssValue "1.5rem").
Proof.
  intros q.
  destruct (@demo_card_spacing_comes_from_size asciiRuntime q [] "padding"
              (or_introl eq_refl))
    as (r & σ' & st & Hcard & Hstyle & _ & Hsize).
  exists r, σ', st. split; [exact Hcard|]. split; [exact Hstyle|].
  exact (proj1 (Hsize eq_refl)).
Defined.

(** X8.  In the demo's Card an entry of the caller's [style] always wins:
    whatever the view, the variant, the size and the status, the rendered
    style has the caller's value for every key the caller sets. *)
Theorem demo_card_caller_style_wins `{StringRuntime}
    (q : Jsx.CardProps) (σ : Store) (sty : gmap string css) (k : string) (c : css) :
  Jsx.style q = Some sty ->
  sty !! k = Some c ->
  exists r σ' st,
    Jsx.Card q σ = Ok (r, σ')
    /\ attrsOf (tree r) !! "style" = Some (AStyle st)
    /\ st !! k = Some c.
Proof.
  intros Hsty Hk. destruct (Jsx_Card_style q σ) as (r & σ' & Hcard & Hstyle).
  eexists r, σ', _. split; [exact Hcard|]. split; [exact Hstyle|].
  rewrite spread_snoc, Hsty. cbn [default].
  apply lookup_union_Some_l. exact Hk.
Qed.

Lemma demo_card_caller_style_wins_witness :
  let sty : gmap string css := {[ "borderLeftColor" := CssValue "#000000" ]} in
  let q := {| Jsx.className := VUndefined; Jsx.variant := None;
              Jsx.size := None; Jsx.status := None;
              Jsx.title := VString (js ""); Jsx.description := VUndefined;
              Jsx.showValidation := Some true; Jsx.onValidationChange := None;
              Jsx.style := Some sty; Jsx.children := None;
              Jsx.forwardedRef := None; Jsx.others := ∅ |} in
  exists r σ' st,
    @Jsx.Card asciiRuntime q [] = Ok (r, σ')
    /\ attrsOf (tree r) !! "style" = Some (AStyle st)
    /\ st !! "borderLeftColor" = Some (CssValue "#000000").
Proof.
  intros sty q.
  exact (@demo_card_caller_style_wins asciiRuntime q [] sty "borderLeftColor"
           (CssValue "#000000") eq_refl eq_refl).
Defined.

(** X9.  In the demo's Card the [status] prop has an effect only together
    with the "status" variant: for any other variant (or none) the whole
    result of a render, tree and effect, is the same for every status. *)
Theorem demo_card_status_needs_status_variant `{StringRuntime}
    (q : Jsx.CardProps) (σ : Store) (st : option Status) :
  Jsx.variant q <> Some VariantStatus ->
  Jsx.Card (Jsx.withLook (Jsx.variant q) st q) σ = Jsx.Card q σ.
Proof.
  intros Hv.
  assert (Hno : forall o, Jsx.variant q = o ->
                          default VariantDefault o <> VariantStatus).
  { intros [v|] Ho; simpl; [congruence | discriminate]. }
  assert (Hp : Jsx.statusPart (Jsx.withLook (Jsx.variant q) st q) = Jsx.statusPart q).
  { unfold Jsx.statusPart. cbn [Jsx.withLook Jsx.variant Jsx.status].
    rewrite !bool_decide_eq_false_2 by (apply Hno; reflexivity). reflexivity. }
  rewrite !Jsx_Card_eq.
  unfold Jsx.errorView, Jsx.customView, Jsx.normalView, Jsx.restProps.
  rewrite Hp. reflexivity.
Qed.

Lemma demo_card_status_needs_status_variant_witness :
  let q := {| Jsx.className := VUndefined; Jsx.variant := Some Featured;
              Jsx.size := None; Jsx.status := Some Success;
              Jsx.title := VString (js "Featured Article");
              Jsx.description := VString (js "Highlighted content");
              Jsx.showValidation := None; Jsx.onValidationChange := None;
              Jsx.style := None; Jsx.children := None;
              Jsx.forwardedRef := None; Jsx.others := ∅ |} in
  @Jsx.Card asciiRuntime (Jsx.withLook (Jsx.variant q) (Some Error) q) []
  = @Jsx.Card asciiRuntime q [].
Proof.
  intros q.
  apply (@demo_card_status_needs_status_variant asciiRuntime q [] (Some Error)).
  discriminate.
Defined.



(** * More about [Card] of Card.tsx *)

(** X11.  Attributes the caller passes to [Card] beyond its own props end
    up on the root element and win over the ones [Card] sets: any such
    attribute is rendered with the caller's value, in both views.  Only
    when the caller passes no [role] is the role "alert" in the error view
    and "article" in the normal view, and only the error view sets
    [aria-live]. *)
Theorem caller_attributes_win_on_the_root `{StringRuntime} `{StyleSystem}
    (p : Tsx.CardProps) (σ : Store) :
  exists v r σ',
    validateCardProps (Tsx.title p) (Tsx.description p) = Ok v
    /\ Tsx.Card p σ = Ok (r, σ')
    /\ (forall (k : string) (a : attr),
           k ∉ Tsx.destructured -> Tsx.others p !! k = Some a ->
           attrsOf (tree r) !! k = Some a)
    /\ (Tsx.others p !! "role" = None ->
        attrsOf (tree r) !! "role"
        = Some (AString (js (match resolveRenderMode v (default false (Tsx.showValidation p)) with
                             | ValidationError => "alert"
                             | Normal => "article"
                             end))))
    /\ (Tsx.others p !! "aria-live" = None ->
        attrsOf (tree r) !! "aria-live"
        = match resolveRenderMode v (default false (Tsx.showValidation p)) with
          | ValidationError => Some (AString (js "polite"))
          | Normal => None
          end).
Proof.
  eexists _, _, _.
  split; [apply validateCardProps_spec|]. split; [apply Tsx_Card_eq|].
  cbn [tree].
  assert (Hrest : forall k, k ∉ Tsx.destructured ->
                            Tsx.restProps p !! k = Tsx.others p !! k).
  { intros k Hk. apply lookup_foldr_delete_not_elem_of. exact Hk. }
  assert (Hrole : "role" ∉ Tsx.destructured) by (apply (bool_decide_unpack _); vm_compute; exact I).
  assert (Hlive : "aria-live" ∉ Tsx.destructured)
    by (apply (bool_decide_unpack _); vm_compute; exact I).
  destruct (resolveRenderMode _ _);
    unfold Tsx.normalView, Tsx.errorView, attrsOf; repeat apply conj.
  - intros k a Hk Ha. apply lookup_union_Some_l. rewrite Hrest; assumption.
  - intros Hnone. rewrite lookup_union_r by (rewrite Hrest; assumption).
    reflexivity.
  - intros Hnone. rewrite lookup_union_r by (rewrite Hrest; assumption).
    reflexivity.
  - intros k a Hk Ha. apply lookup_union_Some_l. rewrite Hrest; assumption.
  - intros Hnone. rewrite lookup_union_r by (rewrite Hrest; assumption).
    reflexivity.
  - intros Hnone. rewrite lookup_union_r by (rewrite Hrest; assumption).
    reflexivity.
Qed.

Lemma caller_attributes_win_on_the_root_witness :
  let p := {| Tsx.className := VUndefined; Tsx.variant := None;
              Tsx.size := None; Tsx.status := None;
              Tsx.title := VString (js "");
              Tsx.description := VString (js "Valid description");
              Tsx.showValidation := Some true;
              Tsx.onValidationChange := None;
              Tsx.forwardedRef := None;
              Tsx.others := {[ "role" := AString (js "status") ]} |} in
  exists r σ',
    @Tsx.Card asciiRuntime joinStyle p [] = Ok (r, σ')
    /\ attrsOf (tree r) !! "role" = Some (AString (js "status"))
    /\ attrsOf (tree r) !! "aria-live" = Some (AString (js "polite")).
Proof.
  intros p.
  destruct (@caller_attributes_win_on_the_root asciiRuntime joinStyle p [])
    as (v & r & σ' & Hv & Hcard & Hgiven & _ & Hlive).
  exists r, σ'. split; [exact Hcard|]. split.
  - apply Hgiven; [apply (bool_decide_unpack _); vm_compute; exact I | reflexivity].
  - rewrite Hlive by reflexivity.
    vm_compute in Hv. injection Hv as <-. reflexivity.
Defined.

(** * More about the demo's helpers *)

(** X12.  The five sub-components of the demo's Card render the children
    they are given, keep their own class names in front of the caller's
    [className], and pass every other attribute of the caller on, the
    caller's value replacing their own: a [style] given to a sub-component
    replaces its built-in style as a whole.  So the heading of the error
    view, which sets its own style, has none of the title's built-in font
    size, which the title of the normal view has. *)
Theorem demo_subcomponents_forward_attributes :
  Forall (fun '(component, base) =>
            forall (props : gmap string attr) (kids : list Node),
              childrenOf (component props kids) = kids
              /\ attrsOf (component props kids) !! "className"
                 = Some (AString (Jsx.cn [VString (js base);
                                          Jsx.classNameOr (classNameOf props)]))
              /\ forall (k : string) (a : attr),
                   k <> "className" -> props !! k = Some a ->
                   attrsOf (component props kids) !! k = Some a)
    [ (Jsx.CardHeader, "flex flex-col");
      (Jsx.CardTitle, "font-semibold leading-none tracking-tight");
      (Jsx.CardDescription, "text-sm text-muted-foreground leading-relaxed");
      (Jsx.CardContent, "");
      (Jsx.CardFooter, "flex items-center") ]
  /\ (forall (q : Jsx.CardProps) (v : CardValidation),
      exists st st',
        (descend [0; 0] (Jsx.errorView q v) ≫= fun h => attrsOf h !! "style")
        = Some (AStyle st)
        /\ st !! "fontSize" = None
        /\ (descend [0; 0] (Jsx.normalView q) ≫= fun h => attrsOf h !! "style")
           = Some (AStyle st')
        /\ st' !! "fontSize" = Some (CssValue "1.125rem")).
Proof.
  split.
  - repeat constructor; try reflexivity.
    all: try (cbn [attrsOf Jsx.CardHeader Jsx.CardTitle Jsx.CardDescription
                   Jsx.CardContent Jsx.CardFooter];
              rewrite lookup_union_r by apply lookup_delete_eq;
              apply lookup_insert_eq).
    all: intros k a Hk Ha;
      cbn [attrsOf Jsx.CardHeader Jsx.CardTitle Jsx.CardDescription
           Jsx.CardContent Jsx.CardFooter];
      apply lookup_union_Some_l; rewrite lookup_delete_ne by congruence;
      exact Ha.
  - intros q v. eexists _, _.
    split; [reflexivity|]. split; [vm_compute; reflexivity|].
    split; [reflexivity|]. vm_compute; reflexivity.
Qed.

Lemma demo_subcomponents_forward_attributes_witness :
  let props : gmap string attr :=
    {[ "style" := AStyle {[ "color" := CssValue "#dc2626" ]};
       "className" := AString (js "mine") ]} in
  attrsOf (Jsx.CardTitle props []) !! "style"
  = Some (AStyle {[ "color" := CssValue "#dc2626" ]}).
Proof.
  intros props.
  pose proof (proj1 demo_subcomponents_forward_attributes) as Hall.
  apply Forall_cons in Hall as [_ Hall].
  apply Forall_cons in Hall as [Htitle _].
  apply (proj2 (proj2 (Htitle props []))); [discriminate | reflexivity].
Defined.






(** * The examples page *)

Lemma renderPass_Card_store `{StringRuntime} `{StyleSystem}
    (p : Tsx.CardProps) (f : Fiber) :
  fiber_ok f ->
  exists t,
    renderPass Tsx.Card p f
    = Ok (passEvents t (Tsx.onValidationChange p)
            (spec_validate (Tsx.title p) (Tsx.description p)),
          {| store := store f ++ [spec_validate (Tsx.title p) (Tsx.description p)];
             lastDeps := Some [DepObject (length (store f));
                               DepCallback (Tsx.onValidationChange p)] |}).
Proof.
  intros Hf. eexists. unfold renderPass. rewrite Tsx_Card_eq.
  cbn [mbind result_bind mret result_ret effect effect_deps effect_body tree].
  rewrite deps_always_change by exact Hf. reflexivity.
Qed.

Lemma examplesPass_again `{StringRuntime} `{StyleSystem} (e : Examples) :
  examples_ok e ->
  exists e', examplesPass e = Ok (e', true)
             /\ examples_ok e'
             /\ validationState e' = Some (length (store (watched e)))
             /\ length (store (watched e')) = S (length (store (watched e))).
Proof.
  intros [Hf Hstate].
  destruct (renderPass_Card_store watchedCard (watched e) Hf) as (t & Hpass).
  eexists. unfold examplesPass. rewrite Hpass.
  cbn [mbind result_bind mret result_ret passEvents observerCalls watchedCard
       Tsx.onValidationChange calls omap list_omap].
  assert (Hnew : validationState e <> Some (length (store (watched e)))).
  { intros Heq. apply Hstate in Heq. lia. }
  rewrite bool_decide_eq_false_2 by exact Hnew.
  split; [reflexivity|]. cbn [validationState watched store negb].
  split; [split|split; [reflexivity|]]; cbn [validationState watched store].
  - unfold fiber_ok. cbn [lastDeps store]. eexists _, _.
    split; [reflexivity|]. rewrite length_app. simpl. lia.
  - intros r Hr. injection Hr as <-. rewrite length_app. simpl. lia.
  - rewrite length_app. simpl. lia.
Qed.

(** X14.  The examples page never stops rendering.  Its state holds the
    verdict object the watched card last handed to [setValidationState];
    every render of the page makes the card allocate a new verdict object
    and hand it over, the setter sees an object other than the stored one
    and asks for another render.  So from the first mount on, no number of
    renders reaches a render that asks for no further one, and after [n]
    renders the card has validated the same title and description [n]
    times. *)
Theorem examples_page_never_settles `{StringRuntime} `{StyleSystem} :
  (forall fuel : nat, examplesSettle fuel examplesMounting = Ok None)
  /\ (forall e : Examples,
      examples_ok e ->
      exists e', examplesPass e = Ok (e', true)
                 /\ examples_ok e'
                 /\ validationState e' = Some (length (store (watched e)))
                 /\ length (store (watched e')) = S (length (store (watched e)))).
Proof.
  split; [|exact examplesPass_again].
  assert (Hall : forall fuel e, examples_ok e -> examplesSettle fuel e = Ok None).
  { induction fuel as [|fuel IH]; intros e He; [reflexivity|].
    destruct (examplesPass_again e He) as (e' & Hpass & He' & _).
    cbn [examplesSettle]. rewrite Hpass. cbn [mbind result_bind].
    apply IH, He'. }
  intros fuel. apply Hall. split; [exact I|]. intros r Hr. discriminate Hr.
Qed.

Lemma examples_page_never_settles_witness :
  exists e', @examplesPass asciiRuntime joinStyle examplesMounting = Ok (e', true)
             /\ validationState e' = Some 0
             /\ length (store (watched e')) = 1.
Proof.
  assert (Hok : examples_ok examplesMounting).
  { split; [exact I|]. intros r Hr. discriminate Hr. }
  destruct (proj2 (@examples_page_never_settles asciiRuntime joinStyle)
              examplesMounting Hok) as (e' & Hpass & _ & Hstate & Hlen).
  exists e'. repeat split; assumption.
Defined.

(** Twenty renders of the page with the stand-in runtime: still not
    settled. *)
Example examples_page_twenty_renders :
  @examplesSettle asciiRuntime joinStyle 20 examplesMounting = Ok None.
Proof. vm_compute. reflexivity. Qed.
